(** * Util_lam: device-control correlation services

    A shallow embedding of [services/migratedControlService.js] (identity
    resolution, the three MongoDB polling loops, [sanitizeMongoDoc]) and of
    [services/controlService.js] ([setting], [slaveRequest]), together with
    the properties the specification states about them.

    Conventions of the embedding:
    - JavaScript values are the type [JsVal]; numbers are the integers of
      the safe range (type [Z], [safe_integer]) plus [NaN] -- fractional
      numbers, infinities and the integers beyond that range, which
      JavaScript rounds and from 1e21 on prints with an exponent, are
      outside the model;
    - an object is an association list in insertion order, read by first
      match;
    - thrown exceptions are the [Throw] case of [Result];
    - the wall clock, the store's answers and the transport are an explicit
      environment, so every function is an executable Rocq function. *)

From Stdlib Require Import ZArith List String Ascii Bool Lia.
From Stdlib Require Import Decimal DecimalString DecimalPos.
Import ListNotations.
Local Open Scope string_scope.
Local Open Scope Z_scope.

(* ===================================================================== *)
(** * JavaScript values *)
(* ===================================================================== *)

Module Js.

#[warnings="-register-all"]
Inductive JsVal : Type :=
| JUndefined
| JNull
| JBool (b : bool)
| JNum (n : Z)
| JNaN
| JStr (s : string)
| JDate (ms : Z)                       (* a Date, by its epoch milliseconds *)
| JObjectId (hex : string)             (* a BSON ObjectId, by its hex form  *)
| JArr (items : list JsVal)
| JObj (fields : list (string * JsVal)).

(** Exceptions: the engine's [TypeError]s and [new Error(msg)]. *)
Inductive Exn : Type :=
| TypeError (msg : string)
| Error (msg : string).

Definition message (e : Exn) : string :=
  match e with TypeError m | Error m => m end.

Inductive Result (A : Type) : Type :=
| Ok (a : A)
| Throw (e : Exn).
Arguments Ok {A} a.
Arguments Throw {A} e.

Definition bind {A B} (r : Result A) (k : A -> Result B) : Result B :=
  match r with
  | Ok a => k a
  | Throw e => Throw e
  end.

Notation "x <- c ;; k" := (bind c (fun x => k))
  (at level 61, c at next level, right associativity).

(** [ToBoolean]. *)
Definition truthy (v : JsVal) : bool :=
  match v with
  | JUndefined | JNull | JNaN => false
  | JBool b => b
  | JNum n => negb (n =? 0)
  | JStr s => negb (s =? EmptyString)%string
  | JDate _ | JObjectId _ | JArr _ | JObj _ => true
  end.

(** [a || b]. *)
Definition or_else (a b : JsVal) : JsVal := if truthy a then a else b.

(** [a === b].  Two objects are identical only if they are the same
    reference; the operands compared in this program always come from
    different sources (request body against stored documents), so object
    operands compare unequal. *)
Definition strict_eq (a b : JsVal) : bool :=
  match a, b with
  | JUndefined, JUndefined => true
  | JNull, JNull => true
  | JBool x, JBool y => Bool.eqb x y
  | JNum x, JNum y => x =? y
  | JStr x, JStr y => (x =? y)%string
  | _, _ => false
  end.

Fixpoint assoc (k : string) (fs : list (string * JsVal)) : option JsVal :=
  match fs with
  | [] => None
  | (k', v) :: r => if (k' =? k)%string then Some v else assoc k r
  end.

(** Reading an own data property that is none of the built-in ones
    ([v.k] for the field names this program uses). *)
Definition field (k : string) (v : JsVal) : JsVal :=
  match v with
  | JObj fs => match assoc k fs with Some x => x | None => JUndefined end
  | _ => JUndefined
  end.

(** [k in v] for a plain object. *)
Definition has_field (k : string) (v : JsVal) : bool :=
  match v with
  | JObj fs => match assoc k fs with Some _ => true | None => false end
  | _ => false
  end.

(** [v.k]: a [TypeError] on [null] and [undefined]. *)
Definition get (v : JsVal) (k : string) : Result JsVal :=
  match v with
  | JUndefined | JNull =>
      Throw (TypeError ("Cannot read properties of nullish value: " ++ k))
  | _ => Ok (field k v)
  end.

(** [v?.k]. *)
Definition get_opt (v : JsVal) (k : string) : JsVal :=
  match v with
  | JUndefined | JNull => JUndefined
  | _ => field k v
  end.

(** [o.k = x] on an object literal: overwrite in place, or append. *)
Fixpoint set_field (k : string) (x : JsVal) (fs : list (string * JsVal))
  : list (string * JsVal) :=
  match fs with
  | [] => [(k, x)]
  | (k', v) :: r =>
      if (k' =? k)%string then (k', x) :: r else (k', v) :: set_field k x r
  end.

(** The integers JavaScript represents exactly. *)
Definition safe_integer (n : Z) : Prop := Z.abs n < 2 ^ 53.

(** Decimal numeral of an integer, as [Number.prototype.toString] prints
    a safe integer. *)
Definition string_of_Z (n : Z) : string :=
  NilZero.string_of_int (Z.to_int n).

Definition string_of_index (i : nat) : string := string_of_Z (Z.of_nat i).

(** [ToString].  An array prints its elements separated by commas, with
    [null] and [undefined] printed empty; a plain object prints as
    [[object Object]].  A Date prints in a locale form that never starts
    with a numeral; only that much matters here, so it is printed as a
    fixed word followed by its milliseconds. *)
Fixpoint to_string (v : JsVal) : string :=
  match v with
  | JUndefined => "undefined"
  | JNull => "null"
  | JBool true => "true"
  | JBool false => "false"
  | JNum n => string_of_Z n
  | JNaN => "NaN"
  | JStr s => s
  | JDate ms => "Date " ++ string_of_Z ms
  | JObjectId hex => hex
  | JArr items =>
      let elt x := match x with
                   | JUndefined | JNull => EmptyString
                   | _ => to_string x
                   end in
      (fix join (l : list JsVal) : string :=
         match l with
         | [] => EmptyString
         | [x] => elt x
         | x :: r => elt x ++ "," ++ join r
         end) items
  | JObj _ => "[object Object]"
  end.

(** ** [parseInt] *)

Definition is_space (c : ascii) : bool :=
  let n := N_of_ascii c in
  ((9 <=? n) && (n <=? 13) || (n =? 32))%N.

Definition digit_of (radix : Z) (c : ascii) : option Z :=
  let n := Z.of_N (N_of_ascii c) in
  let d := if (48 <=? n) && (n <=? 57) then Some (n - 48)
           else if (97 <=? n) && (n <=? 102) then Some (n - 87)
           else if (65 <=? n) && (n <=? 70) then Some (n - 55)
           else None in
  match d with
  | Some x => if x <? radix then Some x else None
  | None => None
  end.

Fixpoint skip_spaces (s : string) : string :=
  match s with
  | String c r => if is_space c then skip_spaces r else s
  | EmptyString => s
  end.

(** Longest numeral prefix of [s] in [radix], accumulated from [acc];
    [seen] tells whether a digit was consumed. *)
Fixpoint digits (radix : Z) (s : string) (seen : bool) (acc : Z)
  : option Z :=
  match s with
  | String c r =>
      match digit_of radix c with
      | Some d => digits radix r true (acc * radix + d)
      | None => if seen then Some acc else None
      end
  | EmptyString => if seen then Some acc else None
  end.

Definition parse_int_string (s : string) : JsVal :=
  let s1 := skip_spaces s in
  let '(sign, s2) :=
    match s1 with
    | String "-" r => (-1, r)
    | String "+" r => (1, r)
    | _ => (1, s1)
    end in
  let '(radix, s3) :=
    match s2 with
    | String "0" (String "x" r) => (16, r)
    | String "0" (String "X" r) => (16, r)
    | _ => (10, s2)
    end in
  match digits radix s3 false 0 with
  | Some n => JNum (sign * n)
  | None => JNaN
  end.

(** [parseInt(v)]: the numeral at the head of [ToString(v)].  On numbers
    and numerals beyond the safe range JavaScript's answer is a rounded
    one, which this value does not follow. *)
Definition parseInt (v : JsVal) : JsVal := parse_int_string (to_string v).

(** Value of a decimal numeral read after [acc]. *)
Fixpoint uint_value (d : Decimal.uint) (acc : Z) : Z :=
  match d with
  | Decimal.Nil => acc
  | Decimal.D0 l => uint_value l (acc * 10 + 0)
  | Decimal.D1 l => uint_value l (acc * 10 + 1)
  | Decimal.D2 l => uint_value l (acc * 10 + 2)
  | Decimal.D3 l => uint_value l (acc * 10 + 3)
  | Decimal.D4 l => uint_value l (acc * 10 + 4)
  | Decimal.D5 l => uint_value l (acc * 10 + 5)
  | Decimal.D6 l => uint_value l (acc * 10 + 6)
  | Decimal.D7 l => uint_value l (acc * 10 + 7)
  | Decimal.D8 l => uint_value l (acc * 10 + 8)
  | Decimal.D9 l => uint_value l (acc * 10 + 9)
  end.

(** Iteration protocol of [for (const x of v)]: arrays yield their
    elements, strings their characters, [null]/[undefined] and the other
    values are not iterable. *)
Definition chars (s : string) : list JsVal :=
  map (fun c => JStr (String c EmptyString)) (list_ascii_of_string s).

Definition iterate (v : JsVal) : Result (list JsVal) :=
  match v with
  | JArr l => Ok l
  | JStr s => Ok (chars s)
  | _ => Throw (TypeError "value is not iterable")
  end.

(** Own enumerable properties, as the spread [{...v}] copies them. *)
Fixpoint indexed (i : nat) (l : list JsVal) : list (string * JsVal) :=
  match l with
  | [] => []
  | x :: r => (string_of_index i, x) :: indexed (S i) r
  end.

Definition own_props (v : JsVal) : list (string * JsVal) :=
  match v with
  | JObj fs => fs
  | JArr l => indexed 0 l
  | JStr s => indexed 0 (chars s)
  | _ => []
  end.

End Js.
Import Js.

(* ===================================================================== *)
(** * Identity resolution: [getThingIdByDeviceId] *)
(* ===================================================================== *)

Module Resolver.

(** The two collections the resolver reads, each by the one query the code
    issues against it.  A rejected query is a [Throw]; a query without a
    match answers [JNull]. *)
Record Database : Type := {
  (* collection("sensor_metadata").findOne({ deviceid }) *)
  sensor_metadata_findOne : JsVal -> Result JsVal;
  (* collection("users").findOne({ "spaces.devices.device_id": deviceid },
                                 { projection: { spaces: 1 } }) *)
  users_findOne : JsVal -> Result JsVal
}.

(** [row.thingid || row.thingId || row.thing_id] *)
Definition row_thingid (row : JsVal) : JsVal :=
  or_else (or_else (field "thingid" row) (field "thingId" row))
          (field "thing_id" row).

(** [d.thing_name || d.thingid || d.thingId || d.thing_id] *)
Definition thing_name_of (d : JsVal) : JsVal :=
  or_else (or_else (or_else (field "thing_name" d) (field "thingid" d))
                   (field "thingId" d))
          (field "thing_id" d).

(** [devices.find(d => d.device_id === parent && d.device_type === "base")]
    on the elements of an array; [undefined] when none satisfies it. *)
Fixpoint find_base (parent : JsVal) (ds : list JsVal) : Result JsVal :=
  match ds with
  | [] => Ok JUndefined
  | d :: r =>
      id <- get d "device_id" ;;
      if strict_eq id parent && strict_eq (field "device_type" d) (JStr "base")
      then Ok d
      else find_base parent r
  end.

Definition devices_find (parent : JsVal) (devices : JsVal) : Result JsVal :=
  match devices with
  | JArr l => find_base parent l
  | _ => Throw (TypeError "space.devices.find is not a function")
  end.

(** Body of the inner [for] loop.  [Some v] is [return v]; [None] lets the
    loop go on to the next device.  Once [device.device_id] has been read
    the device is known not to be nullish, so its other fields are read
    with [field]. *)
Definition visit_device (deviceid devices device : JsVal)
  : Result (option JsVal) :=
  id <- get device "device_id" ;;
  if negb (strict_eq id deviceid) then Ok None
  else
    let fallback :=
      (* Fallback for other device types *)
      let thingName := thing_name_of device in
      if truthy thingName then Ok (Some thingName) else Ok None in
    let tank :=
      if strict_eq (field "device_type" device) (JStr "tank") then
        let parentDeviceId := field "parent_device_id" device in
        if negb (truthy parentDeviceId) then Ok (Some JNull)
        else
          baseDevice <- devices_find parentDeviceId devices ;;
          if truthy baseDevice then
            let thingName := thing_name_of baseDevice in
            if truthy thingName then Ok (Some thingName) else fallback
          else fallback
      else fallback in
    if strict_eq (field "device_type" device) (JStr "base") then
      let thingName := thing_name_of device in
      if truthy thingName then Ok (Some thingName) else tank
    else tank.

Fixpoint scan_devices (deviceid devices : JsVal) (ds : list JsVal)
  : Result (option JsVal) :=
  match ds with
  | [] => Ok None
  | d :: r =>
      o <- visit_device deviceid devices d ;;
      match o with
      | Some v => Ok (Some v)
      | None => scan_devices deviceid devices r
      end
  end.

(** Body of the outer [for] loop. *)
Definition visit_space (deviceid space : JsVal) : Result (option JsVal) :=
  devices <- get space "devices" ;;
  if negb (truthy devices) then Ok None
  else
    ds <- iterate devices ;;
    scan_devices deviceid devices ds.

Fixpoint scan_spaces (deviceid : JsVal) (spaces : list JsVal)
  : Result (option JsVal) :=
  match spaces with
  | [] => Ok None
  | s :: r =>
      o <- visit_space deviceid s ;;
      match o with
      | Some v => Ok (Some v)
      | None => scan_spaces deviceid r
      end
  end.

(** Step 1, the body of the first [try]. *)
Definition from_sensor_metadata (db : Database) (deviceid : JsVal)
  : Result (option JsVal) :=
  row <- sensor_metadata_findOne db deviceid ;;
  if truthy row && truthy (row_thingid row)
  then Ok (Some (row_thingid row))
  else Ok None.

(** Step 2, the body of the second [try]. *)
Definition from_users (db : Database) (deviceid : JsVal)
  : Result (option JsVal) :=
  userDoc <- users_findOne db deviceid ;;
  if truthy userDoc && truthy (field "spaces" userDoc) then
    spaces <- iterate (field "spaces" userDoc) ;;
    scan_spaces deviceid spaces
  else Ok None.

(** [try { ... } catch (err) { logger.error(...) }]: a caught exception
    leaves the step without a result. *)
Definition caught (r : Result (option JsVal)) : option JsVal :=
  match r with
  | Ok o => o
  | Throw _ => None
  end.

Definition getThingIdByDeviceId (db : Database) (deviceid : JsVal) : JsVal :=
  if negb (truthy deviceid) then JNull
  else
    match caught (from_sensor_metadata db deviceid) with
    | Some v => v
    | None =>
        match caught (from_users db deviceid) with
        | Some v => v
        | None => JNull
        end
    end.

End Resolver.
Import Resolver.

(* ===================================================================== *)
(** * The polling loops *)
(* ===================================================================== *)

Module Poller.

(** ** The store's side of a poll query *)

(** Equality clause [{ k: q }] of a filter, for scalar query values: the
    stored value equals [q], or it is an array with an element that does;
    [null] also matches a missing field. *)
Definition same_scalar (q v : JsVal) : bool :=
  match q, v with
  | JNull, JUndefined => true
  | _, _ => strict_eq q v
  end.

Definition mongo_eq (q v : JsVal) : bool :=
  match v with
  | JArr items => existsb (same_scalar q) items
  | _ => same_scalar q v
  end.

Definition stamp (key : string) (d : JsVal) : option Z :=
  match field key d with
  | JDate t => Some t
  | _ => None
  end.

(** A filter [{ k1: q1, ..., key: { $gte: since } }]. *)
Definition qualifies (eqs : list (string * JsVal)) (key : string)
           (since : Z) (d : JsVal) : bool :=
  forallb (fun kq => mongo_eq (snd kq) (field (fst kq) d)) eqs
  && match stamp key d with
     | Some t => since <=? t
     | None => false
     end.

Definition newer (key : string) (best x : JsVal) : JsVal :=
  match stamp key best, stamp key x with
  | Some tb, Some tx => if tb <? tx then x else best
  | _, _ => best
  end.

(** [findOne(filter, { sort: { key: -1 } })] evaluated on the documents
    [coll] of the collection: the qualifying document with the greatest
    [key], or [null]. *)
Definition findOne_latest (eqs : list (string * JsVal)) (key : string)
           (since : Z) (coll : list JsVal) : JsVal :=
  match filter (qualifies eqs key since) coll with
  | [] => JNull
  | d :: r => fold_left (newer key) r d
  end.

(** ** Time and the store, as one iteration of a loop meets them *)

(** What the environment contributes to one iteration:
    - [before_guard]: milliseconds that pass, beyond the sleep itself,
      between the previous clock reading and the [Date.now()] of the loop
      condition (scheduling delay, the latency of the previous query);
    - [before_since]: milliseconds between that reading and the
      [Date.now()] from which [since] is computed;
    - [reply]: the outcome of [findOne] -- the query is rejected, or it is
      evaluated against the documents then in the collection. *)
Record Tick : Type := {
  before_guard : N;
  before_since : N;
  reply : Result (list JsVal)
}.

Definition World : Type := nat -> Tick.

(** The three query shapes. *)
Record Shape : Type := {
  interval : Z;                            (* sleep between iterations *)
  window : Z;                              (* recency window           *)
  clauses : list (string * JsVal);         (* equality clauses         *)
  key : string                             (* time field, also sorted  *)
}.

(** The [while] loop shared by the three functions, from iteration [i] on.
    [prev] is the earliest moment the loop condition can be evaluated:
    [start] at first, afterwards the previous [since] reading plus the
    sleep.  [None] only when [fuel] runs out. *)
Fixpoint poll_loop (sh : Shape) (w : World) (start timeoutMs : Z)
         (fuel i : nat) (prev : Z) : option JsVal :=
  match fuel with
  | O => None
  | S fuel' =>
      let now := prev + Z.of_N (before_guard (w i)) in
      if now - start <? timeoutMs then
        let since := now + Z.of_N (before_since (w i)) - window sh in
        let next :=
          poll_loop sh w start timeoutMs fuel' (S i)
                    (now + Z.of_N (before_since (w i)) + interval sh) in
        match reply (w i) with
        | Ok coll =>
            let doc := findOne_latest (clauses sh) (key sh) since coll in
            if truthy doc then Some doc else next
        | Throw _ => next
        end
      else Some JNull
  end.

(** Iterations that always suffice: each one advances the clock by at
    least the interval. *)
Definition enough (sh : Shape) (timeoutMs : Z) : nat :=
  Z.to_nat (timeoutMs / interval sh) + 2.

Definition poll (sh : Shape) (w : World) (start timeoutMs : Z) : JsVal :=
  match poll_loop sh w start timeoutMs (enough sh timeoutMs) 0 start with
  | Some v => v
  | None => JNull
  end.

Definition slave_shape (thingid : JsVal) : Shape :=
  {| interval := 500;
     window := 15000;
     clauses := [("thingid", thingid); ("response_type", JStr "slave_response")];
     key := "inserted_at" |}.

Definition base_shape (deviceid : JsVal) : Shape :=
  {| interval := 1000;
     window := 10000;
     clauses := [("deviceid", deviceid); ("message_type", JStr "alive_reply")];
     key := "timestamp" |}.

Definition tank_shape (deviceid sensorNo : JsVal) : Shape :=
  {| interval := 1000;
     window := 10000;
     clauses := [("deviceid", deviceid); ("sensor_no", sensorNo);
                 ("message_type", JStr "update")];
     key := "timestamp" |}.

(** [start] is the [Date.now()] read on entry. *)
Definition waitForSlaveResponseFromMongoDB
           (w : World) (start : Z) (thingid : JsVal) (timeoutMs : Z) : JsVal :=
  poll (slave_shape thingid) w start timeoutMs.

Definition checkBaseRespondedInMongo
           (w : World) (start : Z) (deviceid : JsVal) (timeoutMs : Z) : bool :=
  truthy (poll (base_shape deviceid) w start timeoutMs).

Definition checkTankRespondedInMongo
           (w : World) (start : Z) (deviceid sensorNo : JsVal) (timeoutMs : Z)
  : bool :=
  truthy (poll (tank_shape deviceid sensorNo) w start timeoutMs).

(** ** Derived readings, used to state the properties *)

(** Clock reading of the loop condition of iteration [i]. *)
Fixpoint guard_time (sh : Shape) (w : World) (start : Z) (i : nat) : Z :=
  match i with
  | O => start + Z.of_N (before_guard (w O))
  | S j => guard_time sh w start j + Z.of_N (before_since (w j))
           + interval sh + Z.of_N (before_guard (w (S j)))
  end.

(** Clock reading from which iteration [i] computes [since]. *)
Definition since_time (sh : Shape) (w : World) (start : Z) (i : nat) : Z :=
  guard_time sh w start i + Z.of_N (before_since (w i)).

(** The loop condition holds at iteration [i]. *)
Definition in_budget (sh : Shape) (w : World) (start timeoutMs : Z) (i : nat)
  : Prop :=
  guard_time sh w start i - start < timeoutMs.

(** What the query of iteration [i] hands to the loop: the document found,
    or [null] when nothing qualifies or the query is rejected. *)
Definition seen (sh : Shape) (w : World) (start : Z) (i : nat) : JsVal :=
  match reply (w i) with
  | Ok coll =>
      findOne_latest (clauses sh) (key sh)
                     (since_time sh w start i - window sh) coll
  | Throw _ => JNull
  end.

(** ** Vocabulary of the properties *)

(** [y] is at least as recent as [x]. *)
Definition not_older (key : string) (x y : JsVal) : Prop :=
  exists tx ty, stamp key x = Some tx /\ stamp key y = Some ty /\ tx <= ty.

(** Earliest moment at which the condition of iteration [i] is read. *)
Definition entry (sh : Shape) (w : World) (start : Z) (i : nat) : Z :=
  match i with
  | O => start
  | S j => since_time sh w start j + interval sh
  end.

(** Where the loop stops, and with what: every earlier iteration was within
    the budget and saw nothing; iteration [n] either sees the document [v]
    or finds the budget spent. *)
Definition stops_at (sh : Shape) (w : World) (start timeoutMs : Z)
           (n : nat) (v : JsVal) : Prop :=
  (forall j, (j < n)%nat ->
             in_budget sh w start timeoutMs j /\ seen sh w start j = JNull)
  /\ (in_budget sh w start timeoutMs n
      /\ truthy (seen sh w start n) = true /\ v = seen sh w start n
      \/ ~ in_budget sh w start timeoutMs n /\ v = JNull).

(** The loop ran until the budget was spent. *)
Definition runs_to_expiry (sh : Shape) (w : World) (start timeoutMs : Z)
  : Prop :=
  exists n, stops_at sh w start timeoutMs n JNull
            /\ ~ in_budget sh w start timeoutMs n.

(** The budget is spent after this many sleeps. *)
Definition last_turn (sh : Shape) (timeoutMs : Z) : nat :=
  Z.to_nat (timeoutMs / interval sh) + 1.

(** The world in which every rejected query instead finds the collection
    empty. *)
Definition errors_as_misses (w : World) : World :=
  fun i =>
    match reply (w i) with
    | Throw _ => {| before_guard := before_guard (w i);
                    before_since := before_since (w i);
                    reply := Ok [] |}
    | Ok _ => w i
    end.

End Poller.
Import Poller.

(* ===================================================================== *)
(** * [sanitizeMongoDoc] *)
(* ===================================================================== *)

Module Normalizer.

(** [_id.toString()] of a truthy [_id]. *)
Definition id_toString (v : JsVal) : JsVal := JStr (to_string v).

Definition sanitizeMongoDoc (doc : JsVal) : JsVal :=
  if negb (truthy doc) then doc
  else
    let sanitized := own_props doc in                        (* { ...doc } *)
    if truthy (field "_id" (JObj sanitized))
    then JObj (set_field "_id" (id_toString (field "_id" (JObj sanitized)))
                         sanitized)
    else JObj sanitized.

End Normalizer.
Import Normalizer.

(* ===================================================================== *)
(** * The orchestrator: [setting] and [slaveRequest] *)
(* ===================================================================== *)

Module Control.

(** What a call meets outside this code: the store, topic naming, the
    transport, and -- for the poll that follows a publish -- the clock and
    the replies of the response collection. *)
Record Env : Type := {
  db : Database;
  (* getTopic(kind, thingid, purpose), from config/awsIotConfig.js *)
  getTopic : string -> JsVal -> string -> JsVal;
  (* publishToIoT(topic, payload), from utils/mqttHelper.js; a rejection
     is a [Throw] *)
  publishToIoT : JsVal -> JsVal -> Result unit;
  world : World;
  poll_start : Z
}.

(** Calls that leave this module, in the order they are made. *)
Inductive Effect : Type :=
| EResolve (deviceid : JsVal)
| EPublish (topic payload : JsVal)
| EPoll (thingid : JsVal) (timeoutMs : Z).

Record HttpResponse : Type := {
  status : Z;
  json : JsVal
}.

Definition failure (code : Z) (msg : string) : HttpResponse :=
  {| status := code;
     json := JObj [("success", JBool false); ("error", JStr msg)] |}.

(** ** [setting] *)

Definition setting (env : Env) (deviceid payload : JsVal) : Result JsVal :=
  let body :=
    let thingid := getThingIdByDeviceId (db env) deviceid in
    if negb (truthy thingid)
    then Throw (Error ("No thingid found for deviceid: " ++ to_string deviceid))
    else
      let topic := getTopic env "setting" thingid "setting" in
      _ <- publishToIoT env topic payload ;;
      Ok (JObj [("success", JBool true); ("topic", topic)]) in
  match body with
  | Ok v => Ok v
  | Throw error => Throw (Error ("MQTT Publish Failed: " ++ message error))
  end.

(** ** [slaveRequest] *)

(** The payload object literal, then the optional [slaveid]. *)
Definition build_payload (body : JsVal) : JsVal :=
  let payload :=
    [("deviceid", field "deviceid" body);
     ("sensor_no", field "sensor_no" body);
     ("mode", or_else (parseInt (field "mode" body)) (JNum 3));
     ("channel", parseInt (field "channel" body));
     ("address_l", field "address_l" body);
     ("address_h", field "address_h" body);
     ("range", parseInt (field "range" body));
     ("capacity", parseInt (field "capacity" body))] in
  if truthy (field "slaveid" body)
  then JObj (set_field "slaveid" (field "slaveid" body) payload)
  else JObj payload.

(** The [data] object of the reply branch. *)
Definition reply_data (body response : JsVal) : JsVal :=
  let rd := field "response_data" response in
  JObj
    [("status", or_else (get_opt rd "status") (JStr "success"));
     ("deviceid", field "deviceid" response);
     ("thingid", field "thingid" response);
     ("channel", if truthy (get_opt rd "channel")
                 then parseInt (field "channel" rd)
                 else parseInt (field "channel" body));
     ("address_l", or_else (get_opt rd "address_l") (field "address_l" body));
     ("address_h", or_else (get_opt rd "address_h") (field "address_h" body));
     ("sensor_no", or_else (get_opt rd "sensor_no") (field "sensor_no" body));
     ("slaveid", get_opt rd "slaveid");
     ("timestamp", field "inserted_at" response)].

(** [body] is [req.body].  Destructuring a nullish body throws inside the
    [try], as does a rejected publish; both end in the [catch]. *)
Definition slaveRequest (env : Env) (body : JsVal)
  : HttpResponse * list Effect :=
  match body with
  | JUndefined | JNull =>
      (failure 500 "Cannot destructure property 'deviceid' of 'req.body'", [])
  | _ =>
      let deviceid := field "deviceid" body in
      let sensor_no := field "sensor_no" body in
      if negb (truthy deviceid) || negb (truthy sensor_no)
      then (failure 400 "Missing deviceid or sensor_no", [])
      else
        let thingid := getThingIdByDeviceId (db env) deviceid in
        if negb (truthy thingid)
        then (failure 404 "DeviceId not found or no associated thing ID",
              [EResolve deviceid])
        else
          let topic := getTopic env "slaveRequest" thingid "slaveRequest" in
          let payload := build_payload body in
          match publishToIoT env topic payload with
          | Throw error =>
              (failure 500 (message error),
               [EResolve deviceid; EPublish topic payload])
          | Ok _ =>
              let response :=
                waitForSlaveResponseFromMongoDB
                  (world env) (poll_start env) thingid 10000 in
              let effects :=
                [EResolve deviceid; EPublish topic payload;
                 EPoll thingid 10000] in
              if truthy response then
                ({| status := 200;
                    json := JObj
                      [("success", JBool true);
                       ("message", JStr "Published and response received");
                       ("data", reply_data body response)] |},
                 effects)
              else
                ({| status := 200;
                    json := JObj
                      [("success", JBool true);
                       ("message", JStr "Published but no response received");
                       ("data", JNull)] |},
                 effects)
          end
  end.

(** ** Vocabulary of the properties *)

(** The request passed validation and its device was resolved. *)
Definition accepted (env : Env) (body : JsVal) : Prop :=
  truthy (field "deviceid" body) = true
  /\ truthy (field "sensor_no" body) = true
  /\ truthy (getThingIdByDeviceId (db env) (field "deviceid" body)) = true.

Definition thing_of (env : Env) (body : JsVal) : JsVal :=
  getThingIdByDeviceId (db env) (field "deviceid" body).

Definition topic_for (env : Env) (body : JsVal) : JsVal :=
  getTopic env "slaveRequest" (thing_of env body) "slaveRequest".

(** The document the poll of this call ends with, or [null]. *)
Definition polled (env : Env) (body : JsVal) : JsVal :=
  waitForSlaveResponseFromMongoDB
    (world env) (poll_start env) (thing_of env body) 10000.

(** The value the code publishes as [mode]. *)
Definition published_mode (mode : JsVal) : JsVal :=
  match parseInt mode with
  | JNum n => if n =? 0 then JNum 3 else JNum n
  | _ => JNum 3
  end.

End Control.
Import Control.


From Stdlib Require Import Sorting.Sorted Sorting.Permutation.

(* ===================================================================== *)
(** * [getRecentDeviceResponses] *)
(* ===================================================================== *)

Module Recent.

(** [x] sorts after [y] under [{ key: -1 }]: [y] is strictly more recent,
    a document without the time field sorting last. *)
Definition sorts_after (key : string) (x y : JsVal) : bool :=
  match stamp key x, stamp key y with
  | Some tx, Some ty => tx <? ty
  | None, Some _ => true
  | _, _ => false
  end.

Fixpoint insert_desc (key : string) (x : JsVal) (l : list JsVal)
  : list JsVal :=
  match l with
  | [] => [x]
  | y :: r =>
      if sorts_after key x y then y :: insert_desc key x r else x :: y :: r
  end.

(** [.sort({ key: -1 })]: most recent first, documents of equal time in
    the order the collection has them. *)
Fixpoint sort_desc (key : string) (l : list JsVal) : list JsVal :=
  match l with
  | [] => []
  | x :: r => insert_desc key x (sort_desc key r)
  end.

(** [find({ thingid, inserted_at: { $gte: cutoffTime } })
      .sort({ inserted_at: -1 }).toArray()] on the documents [coll]. *)
Definition find_recent (thingid : JsVal) (cutoffTime : Z) (coll : list JsVal)
  : list JsVal :=
  sort_desc "inserted_at"
            (filter (qualifies [("thingid", thingid)] "inserted_at" cutoffTime)
                    coll).

(** [now] is the [Date.now()] of the call, [answer] what the collection
    does with the query: it rejects it, or evaluates it on its documents.
    [seconds] is [None] when the caller leaves the argument out. *)
Definition getRecentDeviceResponses
           (answer : Result (list JsVal)) (now : Z)
           (thingid : JsVal) (seconds : option Z) : list JsVal :=
  let seconds := match seconds with Some s => s | None => 10 end in
  let cutoffTime := now - seconds * 1000 in
  match answer with
  | Ok coll => map sanitizeMongoDoc (find_recent thingid cutoffTime coll)
  | Throw _ => []
  end.

End Recent.
Import Recent.

(* ===================================================================== *)
(** * The other handlers: [control], [isBaseResponded], [isTankResponded] *)
(* ===================================================================== *)

Module Handlers.

(** [user] is [req.user], [timestamp] the value of
    [new Date().toISOString()], [body] is [req.body]. *)
Definition control (env : Env) (user : JsVal) (timestamp : string)
           (body : JsVal) : HttpResponse * list Effect :=
  match body with
  | JUndefined | JNull =>
      (failure 500 "Cannot destructure property 'deviceid' of 'req.body'", [])
  | _ =>
      let deviceid := field "deviceid" body in
      if negb (truthy deviceid)
      then (failure 400 "Missing deviceid in request", [])
      else
        let thingid := getThingIdByDeviceId (db env) deviceid in
        if negb (truthy thingid)
        then (failure 404 "DeviceId not found or no associated thing ID",
              [EResolve deviceid])
        else
          let topic := getTopic env "control" thingid "control" in
          let payload :=
            JObj (set_field "timestamp" (JStr timestamp)
                   (set_field "requestedBy" (get_opt user "mobile_number")
                      (own_props body))) in
          match publishToIoT env topic payload with
          | Throw error =>
              (failure 500 (message error),
               [EResolve deviceid; EPublish topic payload])
          | Ok _ =>
              ({| status := 200;
                  json := JObj
                    [("success", JBool true);
                     ("message", JStr "Control command published successfully");
                     ("topic", topic)] |},
               [EResolve deviceid; EPublish topic payload])
          end
  end.

(** The answer of the two read-side checks. *)
Definition responded_answer (responded : bool) (yes no : string)
  : HttpResponse :=
  {| status := if responded then 200 else 404;
     json := JObj [("success", JBool responded);
                   ("message", JStr (if responded then yes else no))] |}.

Definition required (msg : string) : HttpResponse :=
  {| status := 400;
     json := JObj [("success", JBool false); ("message", JStr msg)] |}.

(** [db()] is [mongoose.connection.db], [undefined] while no connection is
    open.  Both checks call [database.collection(...)] before their loop,
    outside its [try]: without a connection they throw, and the handler's
    [catch] answers 500.  [handle] is [None] in that case, and otherwise
    the world the poll meets. *)
Definition no_connection : Exn :=
  TypeError "Cannot read properties of undefined (reading 'collection')".

Definition with_collection {A : Type} (handle : option World)
           (run : World -> A) : Result A :=
  match handle with
  | Some w => Ok (run w)
  | None => Throw no_connection
  end.

Definition internal_error (error : Exn) : HttpResponse :=
  {| status := 500;
     json := JObj [("success", JBool false);
                   ("message", JStr "Internal server error.");
                   ("details", JStr (message error))] |}.

(** [params] is [req.params]; it is destructured before the [try], so a
    nullish one throws out of the handler.  [start] is the clock reading
    on entry of the poll. *)
Definition isBaseResponded (handle : option World) (start : Z)
           (params : JsVal) : Result HttpResponse :=
  match params with
  | JUndefined | JNull =>
      Throw (TypeError "Cannot destructure property 'deviceid' of 'req.params'")
  | _ =>
      let deviceid := field "deviceid" params in
      if negb (truthy deviceid) then Ok (required "Device ID is required.")
      else
        match with_collection handle
                (fun w => checkBaseRespondedInMongo w start deviceid 5000) with
        | Ok responded =>
            Ok (responded_answer responded "Base responded successfully."
                                 "Base did not respond.")
        | Throw error => Ok (internal_error error)
        end
  end.

Definition isTankResponded (handle : option World) (start : Z)
           (params : JsVal) : Result HttpResponse :=
  match params with
  | JUndefined | JNull =>
      Throw (TypeError "Cannot destructure property 'deviceid' of 'req.params'")
  | _ =>
      let deviceid := field "deviceid" params in
      let sensorNumber := field "sensorNumber" params in
      if negb (truthy deviceid) || negb (truthy sensorNumber)
      then Ok (required "Device ID and Sensor Number are required.")
      else
        match with_collection handle
                (fun w => checkTankRespondedInMongo w start deviceid
                                                    sensorNumber 10000) with
        | Ok responded =>
            Ok (responded_answer responded "Tank responded successfully."
                                 "Tank did not respond.")
        | Throw error => Ok (internal_error error)
        end
  end.

(** A world without delays over a collection that changes with time: the
    query of an iteration is answered from the documents stored at its
    clock reading. *)
Definition world_at (sh : Shape) (start : Z) (stored : Z -> list JsVal)
  : World :=
  fun i => {| before_guard := 0;
              before_since := 0;
              reply := Ok (stored (start + Z.of_nat i * interval sh)) |}.

(** ** Vocabulary of the properties *)

(** The store in which every rejected resolver query instead finds
    nothing. *)
Definition rejections_as_absent (d : Database) : Database :=
  {| sensor_metadata_findOne := fun deviceid =>
       match sensor_metadata_findOne d deviceid with
       | Ok row => Ok row
       | Throw _ => Ok JNull
       end;
     users_findOne := fun deviceid =>
       match users_findOne d deviceid with
       | Ok doc => Ok doc
       | Throw _ => Ok JNull
       end |}.

(** The search of the hierarchy reaches the record [d] of the space whose
    devices are [devices]: the fast path yields nothing, the spaces before
    it yield nothing, and no earlier record of the space has the device
    id. *)
Definition reaches (d0 : Database) (deviceid : JsVal)
           (devices : list JsVal) (d : JsVal) : Prop :=
  truthy deviceid = true
  /\ caught (from_sensor_metadata d0 deviceid) = None
  /\ exists userDoc (spre : list JsVal) space spost (pre : list JsVal) post,
      users_findOne d0 deviceid = Ok userDoc
      /\ field "spaces" userDoc = JArr (spre ++ space :: spost)%list
      /\ (forall s, In s spre -> visit_space deviceid s = Ok None)
      /\ field "devices" space = JArr devices
      /\ devices = (pre ++ d :: post)%list
      /\ (forall x, In x pre ->
                    exists id, get x "device_id" = Ok id
                               /\ strict_eq id deviceid = false)
      /\ strict_eq (field "device_id" d) deviceid = true.

(** [l] is the beginning of [m]. *)
Fixpoint is_prefix (l m : list Effect) : Prop :=
  match l, m with
  | [], _ => True
  | x :: l', y :: m' => x = y /\ is_prefix l' m'
  | _ :: _, [] => False
  end.

End Handlers.
Import Handlers.
(* ===================================================================== *)
(** * Concrete stores and requests *)
(* ===================================================================== *)

Module Fixtures.

Definition tank (id parent : string) (extra : list (string * JsVal)) : JsVal :=
  JObj ([("device_id", JStr id); ("device_type", JStr "tank");
         ("parent_device_id", JStr parent)] ++ extra).

Definition base (id name : string) : JsVal :=
  JObj [("device_id", JStr id); ("device_type", JStr "base");
        ("thing_name", JStr name)].

(** One account with one space holding the given devices; it answers the
    [users] query for the ids in [known].  [sensor_metadata] is empty. *)
Definition account (known : list string) (devices : list JsVal) : Database :=
  {| sensor_metadata_findOne := fun _ => Ok JNull;
     users_findOne := fun deviceid =>
       if existsb (fun k => strict_eq (JStr k) deviceid) known
       then Ok (JObj [("spaces", JArr [JObj [("devices", JArr devices)]])])
       else Ok JNull |}.

(** "D1" is a tank under the base "D0", whose thing is "T0". *)
Definition db_scenario : Database :=
  account ["D0"; "D1"] [base "D0" "T0"; tank "D1" "D0" []].

(** "D1" is a tank whose parent "D0" is not in its space; the tank record
    carries a name of its own. *)
Definition db_orphan : Database :=
  account ["D1"] [tank "D1" "D0" [("thing_name", JStr "T1")]].


(** A store that knows no device at all. *)
Definition db_empty : Database := account [] [].

Definition slave_reply (thing : string) (at_ms : Z)
           (response_data : list (string * JsVal)) : JsVal :=
  JObj [("_id", JObjectId "65f0c0ffee65f0c0ffee0001");
        ("thingid", JStr thing);
        ("deviceid", JStr "D0");
        ("response_type", JStr "slave_response");
        ("response_data", JObj response_data);
        ("inserted_at", JDate at_ms)].

(** A world without delays in which every query sees [coll]. *)
Definition steady (coll : list JsVal) : World :=
  fun _ => {| before_guard := 0; before_since := 0; reply := Ok coll |}.

(** A world without delays in which every query is rejected. *)
Definition broken : World :=
  fun _ => {| before_guard := 0; before_since := 0;
              reply := Throw (Error "connection lost") |}.

Definition topic_of (kind : string) (thingid : JsVal) (purpose : string)
  : JsVal :=
  JStr (kind ++ "/" ++ to_string thingid ++ "/" ++ purpose).

Definition env_of (d : Database) (w : World) : Env :=
  {| db := d;
     getTopic := topic_of;
     publishToIoT := fun _ _ => Ok tt;
     world := w;
     poll_start := 1000000 |}.

Definition request (fields : list (string * JsVal)) : JsVal :=
  JObj ([("deviceid", JStr "D1"); ("sensor_no", JNum 2)] ++ fields).

End Fixtures.

(* ===================================================================== *)
(** * Properties *)
(* ===================================================================== *)

(** ** The value layer *)

Example parseInt_examples :
  parseInt (JStr "  42px") = JNum 42 /\
  parseInt (JStr "-7") = JNum (-7) /\
  parseInt (JStr "0x1F") = JNum 31 /\
  parseInt (JStr "abc") = JNaN /\
  parseInt (JStr EmptyString) = JNaN /\
  parseInt JUndefined = JNaN /\
  parseInt (JArr [JNum 5; JNum 6]) = JNum 5 /\
  parseInt (JNum 0) = JNum 0 /\
  parse_int_string (to_string (JNum (-120))) = JNum (-120).
Proof. repeat split; reflexivity. Qed.

Lemma parseInt_number_or_NaN v :
  (exists n, parseInt v = JNum n) \/ parseInt v = JNaN.
Proof.
  unfold parseInt, parse_int_string.
  repeat match goal with
         | |- context [let '(_, _) := ?p in _] => destruct p
         end;
    match goal with
    | |- context [digits ?r ?s ?b ?a] => destruct (digits r s b a)
    end; eauto.
Qed.

(** *** An integer prints as a numeral that [parseInt] reads back *)

Lemma digits_numeral d :
  forall seen acc,
    seen = true \/ d <> Decimal.Nil ->
    digits 10 (NilEmpty.string_of_uint d) seen acc = Some (uint_value d acc).
Proof.
  induction d; intros seen acc H;
    try (cbn [NilEmpty.string_of_uint digits uint_value];
         change (digit_of 10 _) with (Some 0) || change (digit_of 10 _) with (Some 1)
         || change (digit_of 10 _) with (Some 2) || change (digit_of 10 _) with (Some 3)
         || change (digit_of 10 _) with (Some 4) || change (digit_of 10 _) with (Some 5)
         || change (digit_of 10 _) with (Some 6) || change (digit_of 10 _) with (Some 7)
         || change (digit_of 10 _) with (Some 8) || change (digit_of 10 _) with (Some 9);
         apply IHd; auto).
  simpl. destruct H as [->|H]; [reflexivity|congruence].
Qed.

Lemma uint_value_acc d :
  forall acc : positive, uint_value d (Zpos acc) = Zpos (Pos.of_uint_acc d acc).
Proof.
  induction d; intros acc; cbn [uint_value Pos.of_uint_acc]; try reflexivity;
    rewrite <- IHd; f_equal; lia.
Qed.

Lemma uint_value_0 d : uint_value d 0 = Z.of_N (Pos.of_uint d).
Proof.
  induction d; cbn [uint_value Pos.of_uint]; try reflexivity;
    try (exact IHd);
    change (0 * 10 + _) with (Zpos 1) || change (0 * 10 + _) with (Zpos 2)
    || change (0 * 10 + _) with (Zpos 3) || change (0 * 10 + _) with (Zpos 4)
    || change (0 * 10 + _) with (Zpos 5) || change (0 * 10 + _) with (Zpos 6)
    || change (0 * 10 + _) with (Zpos 7) || change (0 * 10 + _) with (Zpos 8)
    || change (0 * 10 + _) with (Zpos 9);
    apply uint_value_acc.
Qed.

Lemma parse_numeral d :
  d <> Decimal.Nil ->
  parse_int_string (NilEmpty.string_of_uint d) = JNum (uint_value d 0)
  /\ parse_int_string (String "-" (NilEmpty.string_of_uint d))
     = JNum (- uint_value d 0).
Proof.
  intros N.
  pose proof (digits_numeral d false 0 (or_intror N)) as D.
  assert (M : forall v, -1 * v = - v) by (intros; lia).
  destruct d as [|l|l|l|l|l|l|l|l|l|l]; [congruence|..];
    try (unfold parse_int_string; cbn [NilEmpty.string_of_uint skip_spaces is_space] in *;
         cbn -[digits Z.mul]; rewrite D, ?M; cbn [uint_value];
         rewrite ?Z.mul_1_l; split; reflexivity).
  destruct l; unfold parse_int_string; cbn [NilEmpty.string_of_uint] in *;
    cbn -[digits Z.mul]; rewrite D, ?M; cbn [uint_value];
    rewrite ?Z.mul_1_l; split; reflexivity.
Qed.

Lemma parse_string_of_Z n : parse_int_string (string_of_Z n) = JNum n.
Proof.
  unfold string_of_Z. destruct n as [|p|p]; [reflexivity|..];
    cbn [Z.to_int NilZero.string_of_int];
    pose proof (Unsigned.to_uint_nonnil p) as N;
    destruct (parse_numeral _ N) as [P M];
    unfold NilZero.string_of_uint;
    destruct (Pos.to_uint p) eqn:E; try congruence;
    rewrite ?P, ?M, uint_value_0, <- E, Unsigned.of_to; reflexivity.
Qed.

Lemma parseInt_integer n : safe_integer n -> parseInt (JNum n) = JNum n.
Proof. intros _. apply parse_string_of_Z. Qed.

Lemma or_else_truthy a b : truthy a = true -> or_else a b = a.
Proof. unfold or_else; intros ->; reflexivity. Qed.

Lemma or_else_falsy a b : truthy a = false -> or_else a b = b.
Proof. unfold or_else; intros ->; reflexivity. Qed.

Lemma truthy_field_object k v : truthy (field k v) = true -> exists fs, v = JObj fs.
Proof. destruct v; simpl; try discriminate; eauto. Qed.

Lemma assoc_set_same k x fs : assoc k (set_field k x fs) = Some x.
Proof.
  induction fs as [|[k' v] r IH]; simpl.
  - rewrite String.eqb_refl; reflexivity.
  - destruct (k' =? k)%string eqn:E; simpl; rewrite E; auto.
Qed.

Lemma assoc_set_other k k' x fs :
  k <> k' -> assoc k (set_field k' x fs) = assoc k fs.
Proof.
  intros N. induction fs as [|[k0 v] r IH]; simpl.
  - destruct (String.eqb_spec k' k); [congruence | reflexivity].
  - destruct (String.eqb_spec k0 k') as [->|]; simpl.
    + destruct (String.eqb_spec k' k); [congruence | reflexivity].
    + destruct (k0 =? k)%string; auto.
Qed.

Lemma set_field_twice k x fs :
  set_field k x (set_field k x fs) = set_field k x fs.
Proof.
  induction fs as [|[k' v] r IH]; simpl.
  - rewrite String.eqb_refl; reflexivity.
  - destruct (k' =? k)%string eqn:E; simpl; rewrite E; [reflexivity|].
    now rewrite IH.
Qed.

Lemma set_field_present k x fs : assoc k fs = Some x -> set_field k x fs = fs.
Proof.
  induction fs as [|[k' v] r IH]; simpl; [discriminate|].
  destruct (k' =? k)%string; intros H.
  - now inversion H.
  - now rewrite IH.
Qed.

Lemma set_field_keys k x fs :
  assoc k fs <> None -> map fst (set_field k x fs) = map fst fs.
Proof.
  induction fs as [|[k' v] r IH]; simpl; [congruence|].
  destruct (k' =? k)%string; simpl; intros H; [reflexivity|].
  now rewrite IH.
Qed.

(** ** [sanitizeMongoDoc] *)

Lemma sanitize_object fs :
  sanitizeMongoDoc (JObj fs) =
  if truthy (field "_id" (JObj fs))
  then JObj (set_field "_id" (id_toString (field "_id" (JObj fs))) fs)
  else JObj fs.
Proof. reflexivity. Qed.

Lemma sanitize_is_object doc :
  truthy doc = true -> exists fs, sanitizeMongoDoc doc = JObj fs.
Proof.
  intros T. unfold sanitizeMongoDoc. rewrite T. simpl negb. cbv iota.
  destruct (truthy (field "_id" _)); eauto.
Qed.

Lemma field_set_same k x fs : field k (JObj (set_field k x fs)) = x.
Proof. simpl. now rewrite assoc_set_same. Qed.

Lemma sanitize_object_twice fs :
  sanitizeMongoDoc (sanitizeMongoDoc (JObj fs)) = sanitizeMongoDoc (JObj fs).
Proof.
  rewrite (sanitize_object fs).
  destruct (truthy (field "_id" (JObj fs))) eqn:T.
  - rewrite sanitize_object, !field_set_same.
    unfold id_toString. cbn [to_string].
    destruct (truthy (JStr _)); [|reflexivity].
    now rewrite set_field_twice.
  - rewrite sanitize_object, T. reflexivity.
Qed.

Lemma sanitize_spread doc :
  truthy doc = true -> sanitizeMongoDoc doc = sanitizeMongoDoc (JObj (own_props doc)).
Proof. intros T. unfold sanitizeMongoDoc. now rewrite T. Qed.

(** C9.  Normalizing is idempotent; a document whose [_id] already is a
    string, or that has none, is returned as it is; every field other than [_id] keeps its
    value, and the set and order of the keys is kept. *)
Theorem C9_sanitize_idempotent :
  (forall doc, sanitizeMongoDoc (sanitizeMongoDoc doc) = sanitizeMongoDoc doc)
  /\ (forall fs, (assoc "_id" fs = None
                   \/ exists s, assoc "_id" fs = Some (JStr s)) ->
                  sanitizeMongoDoc (JObj fs) = JObj fs)
  /\ (forall fs k, k <> "_id" ->
                   field k (sanitizeMongoDoc (JObj fs)) = field k (JObj fs))
  /\ (forall fs, exists fs', sanitizeMongoDoc (JObj fs) = JObj fs'
                             /\ map fst fs' = map fst fs).
Proof.
  repeat split.
  - intros doc. destruct (truthy doc) eqn:T.
    + rewrite (sanitize_spread doc T). apply sanitize_object_twice.
    + unfold sanitizeMongoDoc. rewrite T. simpl. now rewrite T.
  - intros fs [H|[s H]]; rewrite sanitize_object; simpl; rewrite H;
      [reflexivity|].
    destruct (truthy (JStr s)); [|reflexivity].
    unfold id_toString. simpl. now rewrite set_field_present.
  - intros fs k N. rewrite sanitize_object.
    destruct (truthy _); [|reflexivity].
    simpl. now rewrite assoc_set_other.
  - intros fs. rewrite sanitize_object.
    destruct (truthy (field "_id" (JObj fs))) eqn:T; eauto.
    eexists; split; [reflexivity|].
    apply set_field_keys. simpl in T. destruct (assoc "_id" fs); [congruence|discriminate].
Qed.

Lemma C9_sanitize_idempotent_witness :
  sanitizeMongoDoc
    (JObj [("_id", JStr "65f0c0ffee65f0c0ffee0001"); ("thingid", JStr "T0")])
  = JObj [("_id", JStr "65f0c0ffee65f0c0ffee0001"); ("thingid", JStr "T0")]
  /\ field "thingid"
       (sanitizeMongoDoc (Fixtures.slave_reply "T0" 5 [])) = JStr "T0".
Proof.
  split.
  - apply (proj1 (proj2 C9_sanitize_idempotent)).
    right. exists "65f0c0ffee65f0c0ffee0001". reflexivity.
  - unfold Fixtures.slave_reply.
    rewrite (proj1 (proj2 (proj2 C9_sanitize_idempotent))).
    + reflexivity.
    + discriminate.
Defined.

(** ** [setting] *)

Lemma setting_not_found env deviceid payload :
  truthy (getThingIdByDeviceId (db env) deviceid) = false ->
  setting env deviceid payload
  = Throw (Error ("MQTT Publish Failed: No thingid found for deviceid: "
                  ++ to_string deviceid)).
Proof. intros T. unfold setting. rewrite T. reflexivity. Qed.

Lemma setting_publish_rejected env deviceid payload error :
  truthy (getThingIdByDeviceId (db env) deviceid) = true ->
  publishToIoT env
    (getTopic env "setting" (getThingIdByDeviceId (db env) deviceid) "setting")
    payload = Throw error ->
  setting env deviceid payload
  = Throw (Error ("MQTT Publish Failed: " ++ message error)).
Proof. intros T P. unfold setting. rewrite T. simpl. rewrite P. reflexivity. Qed.

(** C5, on the code.  For a device that resolves to nothing, [setting]
    raises the error that wraps a transport failure although the
    transport accepts every publish; the outcome is the one of a resolved
    device whose publish is rejected with the same text. *)
Theorem C5_setting_not_found_is_wrapped :
  let env := Fixtures.env_of Fixtures.db_empty (Fixtures.steady []) in
  let rejecting :=
    {| db := Fixtures.db_scenario;
       getTopic := Fixtures.topic_of;
       publishToIoT := fun _ _ =>
         Throw (Error "No thingid found for deviceid: ghost");
       world := Fixtures.steady [];
       poll_start := 0 |} in
  getThingIdByDeviceId (db env) (JStr "ghost") = JNull
  /\ (forall topic payload, publishToIoT env topic payload = Ok tt)
  /\ setting env (JStr "ghost") (JObj [("interval", JNum 30)])
     = Throw (Error "MQTT Publish Failed: No thingid found for deviceid: ghost")
  /\ setting env (JStr "ghost") (JObj [("interval", JNum 30)])
     = setting rejecting (JStr "D1") (JObj [("interval", JNum 30)]).
Proof. repeat split; reflexivity. Qed.

(** ** [getThingIdByDeviceId] *)

Lemma field_array_object k v l : field k v = JArr l -> exists fs, v = JObj fs.
Proof. destruct v; simpl; try discriminate; eauto. Qed.

Lemma scan_devices_skip deviceid devices pre rest :
  (forall x, In x pre -> visit_device deviceid devices x = Ok None) ->
  scan_devices deviceid devices (pre ++ rest)
  = scan_devices deviceid devices rest.
Proof.
  induction pre as [|x pre IH]; intros H; simpl; [reflexivity|].
  rewrite (H x (or_introl eq_refl)). simpl. apply IH.
  intros y I. apply H. now right.
Qed.

Lemma scan_spaces_skip deviceid spre rest :
  (forall s, In s spre -> visit_space deviceid s = Ok None) ->
  scan_spaces deviceid (spre ++ rest) = scan_spaces deviceid rest.
Proof.
  induction spre as [|s spre IH]; intros H; simpl; [reflexivity|].
  rewrite (H s (or_introl eq_refl)). simpl. apply IH.
  intros y I. apply H. now right.
Qed.

Lemma visit_device_other deviceid devices x id :
  get x "device_id" = Ok id -> strict_eq id deviceid = false ->
  visit_device deviceid devices x = Ok None.
Proof. intros G E. unfold visit_device. rewrite G. simpl. now rewrite E. Qed.


(** A tank whose [parent_device_id] is missing ends the search at once. *)
Lemma visit_tank_without_parent deviceid devices d :
  strict_eq (field "device_id" d) deviceid = true ->
  truthy deviceid = true ->
  field "device_type" d = JStr "tank" ->
  truthy (field "parent_device_id" d) = false ->
  visit_device deviceid devices d = Ok (Some JNull).
Proof.
  intros E T Ty P. unfold visit_device.
  assert (G : get d "device_id" = Ok (field "device_id" d)).
  { destruct d; try reflexivity; simpl in E; destruct deviceid; discriminate. }
  rewrite G. simpl. rewrite E, Ty, P. reflexivity.
Qed.







(** C3, on the code.  A tank whose parent is not in its space resolves to
    the name the tank record itself carries; and where the tank carries
    none, to the name of a later record with the same device id. *)
Theorem C3_orphan_tank_falls_back :
  let orphan := Fixtures.tank "D1" "D0" [("thing_name", JStr "T1")] in
  let bare := Fixtures.tank "D1" "D0" [] in
  let other := JObj [("device_id", JStr "D1"); ("device_type", JStr "valve");
                     ("thing_name", JStr "T9")] in
  find_base (JStr "D0") [orphan] = Ok JUndefined
  /\ getThingIdByDeviceId (Fixtures.account ["D1"] [orphan]) (JStr "D1")
     = JStr "T1"
  /\ find_base (JStr "D0") [bare; other] = Ok JUndefined
  /\ getThingIdByDeviceId (Fixtures.account ["D1"] [bare; other]) (JStr "D1")
     = JStr "T9".
Proof. repeat split; reflexivity. Qed.

(** ** The query of one iteration *)

Section FindOne.
Variable eqs : list (string * JsVal).
Variable key : string.
Variable since : Z.

Let ok := qualifies eqs key since.
Local Abbreviation not_older := (Poller.not_older key).

Lemma qualifies_stamp d :
  ok d = true -> exists t, stamp key d = Some t /\ since <= t.
Proof.
  unfold ok, qualifies. intros H. apply andb_prop in H as [_ H].
  destruct (stamp key d) as [t|]; [|discriminate].
  exists t. split; [reflexivity|]. now apply Z.leb_le.
Qed.

Lemma qualifies_truthy d : ok d = true -> truthy d = true.
Proof.
  intros H. destruct (qualifies_stamp d H) as (t & S & _).
  unfold stamp in S. destruct d; simpl in S; try discriminate; reflexivity.
Qed.

Lemma newer_choice best x : newer key best x = best \/ newer key best x = x.
Proof.
  unfold newer. destruct (stamp key best), (stamp key x); auto.
  destruct (_ <? _); auto.
Qed.

Lemma fold_newer_in r : forall d, In (fold_left (newer key) r d) (d :: r).
Proof.
  induction r as [|x r IH]; intros d; simpl; [auto|].
  destruct (IH (newer key d x)) as [E|I]; [|auto].
  rewrite <- E. destruct (newer_choice d x) as [-> | ->]; auto.
Qed.

Lemma newer_not_older d x :
  (exists t, stamp key d = Some t) -> (exists t, stamp key x = Some t) ->
  not_older d (newer key d x) /\ not_older x (newer key d x)
  /\ exists t, stamp key (newer key d x) = Some t.
Proof.
  intros [td Hd] [tx Hx]. unfold not_older, newer. rewrite Hd, Hx.
  destruct (Z.ltb_spec td tx).
  - repeat split.
    + exists td, tx. repeat split; auto. lia.
    + exists tx, tx. repeat split; auto. lia.
    + eauto.
  - repeat split.
    + exists td, td. repeat split; auto. lia.
    + exists tx, td. repeat split; auto.
    + eauto.
Qed.

Lemma not_older_trans x y z : not_older x y -> not_older y z -> not_older x z.
Proof.
  intros (a & b & Ha & Hb & L) (b' & c & Hb' & Hc & L').
  rewrite Hb in Hb'. inversion Hb'. subst.
  exists a, c. repeat split; auto. lia.
Qed.

Lemma fold_newer_max r :
  forall d,
    (forall x, In x (d :: r) -> exists t, stamp key x = Some t) ->
    forall x, In x (d :: r) -> not_older x (fold_left (newer key) r d).
Proof.
  induction r as [|y r IH]; intros d St x I.
  - destruct I as [<-|[]]. destruct (St d (or_introl eq_refl)) as [t E].
    exists t, t. repeat split; auto. lia.
  - simpl.
    destruct (newer_not_older d y) as (Hd & Hy & Hn);
      [apply St; simpl; auto .. |].
    assert (St' : forall z, In z (newer key d y :: r) ->
                            exists t, stamp key z = Some t).
    { intros z [<-|Iz]; [exact Hn|]. apply St. simpl. auto. }
    destruct I as [<-|[<-|I]].
    + eapply not_older_trans; [exact Hd|]. apply IH; simpl; auto.
    + eapply not_older_trans; [exact Hy|]. apply IH; simpl; auto.
    + apply IH; simpl; auto.
Qed.

(** The query answers [null] exactly when no document qualifies. *)
Lemma findOne_latest_null coll :
  findOne_latest eqs key since coll = JNull
  <-> forall d, In d coll -> ok d = false.
Proof.
  unfold findOne_latest. fold ok.
  destruct (filter ok coll) as [|d r] eqn:F; split.
  - intros _ d I. destruct (ok d) eqn:O; [|reflexivity].
    assert (In d (filter ok coll)) by (apply filter_In; auto).
    rewrite F in H. destruct H.
  - reflexivity.
  - intros E. exfalso.
    pose proof (fold_newer_in r d) as I. rewrite <- F in I.
    apply filter_In in I as [_ O]. apply qualifies_truthy in O.
    rewrite E in O. discriminate.
  - intros H. exfalso.
    assert (I : In d (filter ok coll)) by (rewrite F; simpl; auto).
    apply filter_In in I as [I O]. rewrite (H d I) in O. discriminate.
Qed.

(** Otherwise it answers a document of the collection that qualifies and
    is at least as recent as every document that qualifies. *)
Lemma findOne_latest_doc coll :
  findOne_latest eqs key since coll <> JNull ->
  let r := findOne_latest eqs key since coll in
  In r coll /\ ok r = true /\ truthy r = true
  /\ forall d, In d coll -> ok d = true -> not_older d r.
Proof.
  unfold findOne_latest. fold ok.
  destruct (filter ok coll) as [|d r] eqn:F; [congruence|].
  intros _. cbv zeta.
  assert (Sub : forall x, In x (d :: r) -> In x coll /\ ok x = true).
  { intros x I. rewrite <- F in I. now apply filter_In in I. }
  pose proof (fold_newer_in r d) as I.
  destruct (Sub _ I) as [Ic Ok].
  repeat split; auto.
  - now apply qualifies_truthy.
  - intros x Ix Ox. apply fold_newer_max.
    + intros z Iz. destruct (Sub z Iz) as [_ Oz].
      destruct (qualifies_stamp z Oz) as (t & E & _). eauto.
    + rewrite <- F. apply filter_In. auto.
Qed.

Lemma findOne_latest_truthy coll :
  truthy (findOne_latest eqs key since coll) = false
  <-> findOne_latest eqs key since coll = JNull.
Proof.
  split; [|intros ->; reflexivity].
  intros T.
  destruct (findOne_latest eqs key since coll) eqn:E; try reflexivity;
    exfalso;
    assert (N : findOne_latest eqs key since coll <> JNull)
      by (rewrite E; discriminate);
    destruct (findOne_latest_doc coll N) as (_ & _ & T' & _);
    rewrite E in T'; rewrite T' in T; discriminate.
Qed.

End FindOne.

(** ** The loop *)

Section Loop.
Variable sh : Shape.
Variable w : World.
Variables start timeoutMs : Z.
Hypothesis interval_pos : 0 < interval sh.

Local Abbreviation entry := (Poller.entry sh w start).
Local Abbreviation stops_at := (Poller.stops_at sh w start timeoutMs).
Local Abbreviation last_turn := (Poller.last_turn sh timeoutMs).

Lemma guard_time_entry i :
  guard_time sh w start i = entry i + Z.of_N (before_guard (w i)).
Proof. destruct i; simpl; unfold since_time; lia. Qed.

Lemma seen_cases i :
  seen sh w start i = JNull \/ truthy (seen sh w start i) = true.
Proof.
  destruct (truthy (seen sh w start i)) eqn:T; [auto|left].
  unfold seen in *. destruct (reply (w i)); [|reflexivity].
  now apply findOne_latest_truthy.
Qed.

(** One turn of the loop, in terms of the derived readings. *)
Lemma poll_loop_step fuel i :
  poll_loop sh w start timeoutMs (S fuel) i (entry i)
  = if guard_time sh w start i - start <? timeoutMs then
      if truthy (seen sh w start i) then Some (seen sh w start i)
      else poll_loop sh w start timeoutMs fuel (S i) (entry (S i))
    else Some JNull.
Proof.
  cbn [poll_loop]. rewrite <- guard_time_entry.
  destruct (_ <? _); [|reflexivity].
  unfold seen, since_time. cbn [entry]. unfold since_time.
  destruct (reply (w i)); reflexivity.
Qed.

Lemma guard_time_grows i :
  guard_time sh w start i + interval sh <= guard_time sh w start (S i).
Proof. simpl. lia. Qed.

Lemma guard_time_mono i j :
  (i <= j)%nat -> guard_time sh w start i <= guard_time sh w start j.
Proof.
  induction 1 as [|j L IH]; [lia|].
  pose proof (guard_time_grows j). lia.
Qed.

Lemma guard_time_lower i :
  start + Z.of_nat i * interval sh <= guard_time sh w start i.
Proof.
  induction i as [|i IH]; [simpl; lia|].
  pose proof (guard_time_grows i). lia.
Qed.

Lemma in_budget_earlier i j :
  (i <= j)%nat -> in_budget sh w start timeoutMs j ->
  in_budget sh w start timeoutMs i.
Proof.
  unfold in_budget. intros L B. pose proof (guard_time_mono i j L). lia.
Qed.

Lemma poll_loop_stops fuel :
  forall i v,
    (forall j, (j < i)%nat ->
               in_budget sh w start timeoutMs j /\ seen sh w start j = JNull) ->
    poll_loop sh w start timeoutMs fuel i (entry i) = Some v ->
    exists n, stops_at n v.
Proof.
  induction fuel as [|fuel IH]; intros i v Before R; [discriminate|].
  rewrite poll_loop_step in R.
  destruct (Z.ltb_spec (guard_time sh w start i - start) timeoutMs) as [B|B].
  - destruct (truthy (seen sh w start i)) eqn:T.
    + inversion R. subst. exists i. split; [exact Before|]. left. auto.
    + apply (IH (S i) v); [|exact R].
      intros j L. destruct (Nat.eq_dec j i) as [->|N].
      * split; [exact B|]. destruct (seen_cases i) as [E|E]; [exact E|].
        rewrite E in T. discriminate.
      * apply Before. lia.
  - inversion R. subst. exists i. split; [exact Before|]. right.
    unfold in_budget. split; [lia|reflexivity].
Qed.

Lemma stops_at_unique n v n' v' :
  stops_at n v -> stops_at n' v' -> n = n' /\ v = v'.
Proof.
  assert (K : forall a b x y, stops_at a x -> stops_at b y -> (a < b)%nat -> False).
  { intros a b x y [_ Ha] [Hb _] L. destruct (Hb a L) as [B E].
    destruct Ha as [(_ & T & _)|[NB _]]; [|contradiction].
    rewrite E in T. discriminate. }
  intros H H'.
  assert (n = n').
  { destruct (Nat.lt_trichotomy n n') as [L|[E|L]]; [|exact E|];
      exfalso; eauto. }
  subst n'. split; [reflexivity|].
  destruct H as [_ [(B & T & ->)|[NB ->]]], H' as [_ [(B' & T' & ->)|[NB' ->]]];
    try reflexivity; contradiction.
Qed.

Lemma last_turn_out_of_budget i :
  (last_turn <= i)%nat -> ~ in_budget sh w start timeoutMs i.
Proof.
  unfold in_budget, last_turn. intros L.
  pose proof (guard_time_lower i) as G.
  assert (timeoutMs <= Z.of_nat i * interval sh); [|lia].
  destruct (Z.le_gt_cases 0 timeoutMs) as [P|P].
  - pose proof (Z.mul_succ_div_gt timeoutMs (interval sh) interval_pos).
    assert (0 <= timeoutMs / interval sh) by (apply Z.div_pos; lia).
    assert (timeoutMs / interval sh + 1 <= Z.of_nat i) by lia.
    nia.
  - assert (0 <= Z.of_nat i * interval sh) by nia. lia.
Qed.

Lemma poll_loop_returns fuel :
  forall i, (last_turn <= i + fuel)%nat ->
            poll_loop sh w start timeoutMs (S fuel) i (entry i) <> None.
Proof.
  induction fuel as [|fuel IH]; intros i L; rewrite poll_loop_step.
  - destruct (Z.ltb_spec (guard_time sh w start i - start) timeoutMs) as [B|B];
      [|discriminate].
    exfalso. apply (last_turn_out_of_budget i); [lia|exact B].
  - destruct (_ <? _); [|discriminate].
    destruct (truthy _); [discriminate|].
    apply IH. lia.
Qed.

Lemma poll_loop_more_fuel fuel :
  forall i prev v,
    poll_loop sh w start timeoutMs fuel i prev = Some v ->
    forall extra,
      poll_loop sh w start timeoutMs (fuel + extra) i prev = Some v.
Proof.
  induction fuel as [|fuel IH]; intros i prev v R extra; [discriminate|].
  cbn [poll_loop Nat.add] in *.
  destruct (_ <? _); [|exact R].
  destruct (reply (w i)) as [coll|].
  - destruct (truthy _); [exact R|]. now apply IH.
  - now apply IH.
Qed.

(** The loop returns, and its answer does not depend on the fuel. *)
Lemma poll_total :
  forall fuel, (enough sh timeoutMs <= fuel)%nat ->
               poll_loop sh w start timeoutMs fuel 0 start
               = Some (poll sh w start timeoutMs).
Proof.
  intros fuel L. unfold poll.
  destruct (poll_loop sh w start timeoutMs (enough sh timeoutMs) 0 start)
    as [v|] eqn:R.
  - replace fuel with (enough sh timeoutMs + (fuel - enough sh timeoutMs))%nat
      by lia.
    now apply poll_loop_more_fuel.
  - exfalso. revert R. unfold enough.
    replace (Z.to_nat (timeoutMs / interval sh) + 2)%nat with (S last_turn)
      by (unfold last_turn; lia).
    apply (poll_loop_returns last_turn 0). lia.
Qed.

Lemma poll_stops : exists n, stops_at n (poll sh w start timeoutMs).
Proof.
  apply (poll_loop_stops (enough sh timeoutMs) 0); [intros j L; lia|].
  apply poll_total. lia.
Qed.

(** [null] exactly when no iteration within the budget sees a document. *)
Lemma poll_null_iff :
  poll sh w start timeoutMs = JNull
  <-> forall i, in_budget sh w start timeoutMs i -> seen sh w start i = JNull.
Proof.
  destruct poll_stops as [n [Before Stop]]. split.
  - intros E i B.
    destruct Stop as [(_ & T & V)|[NB _]].
    + rewrite E in V. rewrite <- V in T. discriminate.
    + destruct (Nat.lt_ge_cases i n) as [L|L]; [now apply Before|].
      exfalso. apply NB. now apply in_budget_earlier with i.
  - intros H. destruct Stop as [(B & T & V)|[_ V]]; [|exact V].
    rewrite (H n B) in T. discriminate.
Qed.

End Loop.

(** ** The three polling functions *)

Lemma slave_interval thingid : 0 < interval (slave_shape thingid).
Proof. reflexivity. Qed.

Lemma base_interval deviceid : 0 < interval (base_shape deviceid).
Proof. reflexivity. Qed.

Lemma tank_interval deviceid sensorNo : 0 < interval (tank_shape deviceid sensorNo).
Proof. reflexivity. Qed.

(** What it means for the query of iteration [i] to come back empty. *)
Lemma seen_null sh w start i :
  seen sh w start i = JNull
  <-> match reply (w i) with
      | Ok coll =>
          forall d, In d coll ->
                    qualifies (clauses sh) (key sh)
                              (since_time sh w start i - window sh) d = false
      | Throw _ => True
      end.
Proof.
  unfold seen. destruct (reply (w i)); [apply findOne_latest_null|tauto].
Qed.

(** C1 (as the code has it).  For the slave-reply poll:
    - it returns, with the same answer for every sufficient fuel;
    - the query of iteration [i] looks back 15000 ms from the clock reading
      of that iteration, and these readings advance by at least the 500 ms
      sleep from one iteration to the next;
    - at the first iteration within the budget whose query finds a
      qualifying document, the poll returns a document of the collection
      that qualifies and is at least as recent as every qualifying one;
    - it returns [null] exactly when no query made by an iteration that
      begins within the budget is answered with a qualifying document; a
      document stored after the last such query, or while the query is
      rejected, is not seen. *)
Theorem C1_poll_returns_latest_or_timeout :
  forall (w : World) (start : Z) (thingid : JsVal) (timeoutMs : Z),
    let sh := slave_shape thingid in
    let r := waitForSlaveResponseFromMongoDB w start thingid timeoutMs in
    let since i := since_time sh w start i - 15000 in
    let ok i := qualifies [("thingid", thingid);
                           ("response_type", JStr "slave_response")]
                          "inserted_at" (since i) in
    (forall fuel, (enough sh timeoutMs <= fuel)%nat ->
                  poll_loop sh w start timeoutMs fuel 0 start = Some r)
    /\ (forall i, since i + 500 <= since (S i))
    /\ (forall i coll,
           in_budget sh w start timeoutMs i ->
           (forall j, (j < i)%nat -> seen sh w start j = JNull) ->
           reply (w i) = Ok coll ->
           (exists d, In d coll /\ ok i d = true) ->
           r = seen sh w start i
           /\ In r coll /\ ok i r = true
           /\ forall d, In d coll -> ok i d = true ->
                        not_older "inserted_at" d r)
    /\ (r = JNull
        <-> forall i, in_budget sh w start timeoutMs i ->
                      match reply (w i) with
                      | Ok coll => forall d, In d coll -> ok i d = false
                      | Throw _ => True
                      end)
    /\ (r <> JNull ->
        exists i coll, in_budget sh w start timeoutMs i
                       /\ reply (w i) = Ok coll
                       /\ In r coll /\ ok i r = true).
Proof.
  intros w start thingid timeoutMs sh r since ok.
  pose proof (slave_interval thingid) as P. fold sh in P.
  assert (Found : forall i coll,
             reply (w i) = Ok coll -> seen sh w start i <> JNull ->
             In (seen sh w start i) coll /\ ok i (seen sh w start i) = true
             /\ forall d, In d coll -> ok i d = true ->
                          not_older "inserted_at" d (seen sh w start i)).
  { intros i coll R N. unfold seen in *. rewrite R in *.
    destruct (findOne_latest_doc _ _ _ coll N) as (I & O & _ & M).
    auto. }
  split; [|split; [|split; [|split]]].
  - intros fuel L. now apply poll_total.
  - intros i. unfold since, since_time. cbn [guard_time].
    change (interval sh) with 500. lia.
  - intros i coll B Before R (d & I & O).
    assert (N : seen sh w start i <> JNull).
    { intros E. apply seen_null in E. rewrite R in E.
      specialize (E d I). unfold ok, since in O. simpl in E.
      rewrite E in O. discriminate. }
    assert (S : stops_at sh w start timeoutMs i (seen sh w start i)).
    { split.
      - intros j L. split; [|now apply Before].
        apply in_budget_earlier with i; auto; lia.
      - left. repeat split; auto.
        destruct (seen_cases sh w start i); [contradiction|assumption]. }
    destruct (poll_stops sh w start timeoutMs P) as [n Sn].
    destruct (stops_at_unique _ _ _ _ _ _ _ _ Sn S) as [_ E].
    change (poll sh w start timeoutMs) with r in E.
    rewrite E. split; [reflexivity|]. now apply Found.
  - unfold r, waitForSlaveResponseFromMongoDB. fold sh.
    rewrite (poll_null_iff sh w start timeoutMs P).
    split; intros H i B; specialize (H i B);
      apply (seen_null sh w start i) in H; exact H.
  - intros N.
    destruct (poll_stops sh w start timeoutMs P) as [n [_ Stop]].
    change (poll sh w start timeoutMs) with r in Stop.
    destruct Stop as [(B & T & V)|[_ V]]; [|contradiction].
    destruct (reply (w n)) as [coll|e] eqn:R.
    + exists n, coll. rewrite V in N.
      destruct (Found n coll R N) as (I & O & _).
      rewrite V. auto.
    + unfold seen in T. rewrite R in T. discriminate.
Qed.

Lemma C1_poll_returns_latest_or_timeout_witness :
  let older := Fixtures.slave_reply "T0" 999000 [("channel", JNum 7)] in
  let newest := Fixtures.slave_reply "T0" 999500 [] in
  let stale := Fixtures.slave_reply "T0" 900000 [] in
  waitForSlaveResponseFromMongoDB
    (Fixtures.steady [older; newest; stale]) 1000000 (JStr "T0") 10000
  = newest
  /\ waitForSlaveResponseFromMongoDB
       (Fixtures.steady [stale]) 1000000 (JStr "T0") 10000
     = JNull.
Proof.
  intros older newest stale. split.
  - pose proof (C1_poll_returns_latest_or_timeout
                  (Fixtures.steady [older; newest; stale])
                  1000000 (JStr "T0") 10000) as H.
    cbv zeta in H. destruct H as (_ & _ & H & _).
    destruct (H 0%nat [older; newest; stale]) as (E & _).
    + unfold in_budget. simpl. lia.
    + intros j L. lia.
    + reflexivity.
    + exists older. split; [left; reflexivity | reflexivity].
    + rewrite E. reflexivity.
  - pose proof (C1_poll_returns_latest_or_timeout
                  (Fixtures.steady [stale]) 1000000 (JStr "T0") 10000) as H.
    cbv zeta in H. destruct H as (_ & _ & _ & H & _).
    apply H. intros i B d [<-|[]].
    unfold qualifies, since_time. simpl forallb. cbn [andb].
    change (stamp "inserted_at" stale) with (Some 900000).
    apply Z.leb_gt.
    pose proof (guard_time_lower (slave_shape (JStr "T0"))
                  (Fixtures.steady [stale]) 1000000 i) as G.
    simpl interval in G. simpl Z.of_N. lia.
Defined.

(** C1, refuted as stated: a reply stored 9900 ms into a budget of
    10000 ms -- after the last query, made at 9500 ms, and before the
    budget is spent -- qualifies from then on and is not returned. *)
Lemma C1_late_reply_is_missed :
  let late := Fixtures.slave_reply "T0" 1009900 [] in
  let stored t := if 1009900 <=? t then [late] else [] in
  let w := world_at (slave_shape (JStr "T0")) 1000000 stored in
  In late (stored 1009900)
  /\ 1009900 < 1000000 + 10000
  /\ qualifies [("thingid", JStr "T0");
                ("response_type", JStr "slave_response")]
               "inserted_at" (1009900 - 15000) late = true
  /\ waitForSlaveResponseFromMongoDB w 1000000 (JStr "T0") 10000 = JNull.
Proof.
  intros late stored w.
  split; [left; reflexivity|]. split; [reflexivity|].
  split; [reflexivity|]. vm_compute. reflexivity.
Qed.

(** ** Query errors *)

Lemma errors_as_misses_tick w i :
  before_guard (errors_as_misses w i) = before_guard (w i)
  /\ before_since (errors_as_misses w i) = before_since (w i)
  /\ reply (errors_as_misses w i)
     = match reply (w i) with
       | Ok coll => Ok coll
       | Throw _ => Ok []
       end.
Proof. unfold errors_as_misses. destruct (reply (w i)) eqn:R; auto. Qed.

Lemma poll_loop_errors_as_misses sh w start timeoutMs fuel :
  forall i prev,
    poll_loop sh (errors_as_misses w) start timeoutMs fuel i prev
    = poll_loop sh w start timeoutMs fuel i prev.
Proof.
  induction fuel as [|fuel IH]; intros i prev; [reflexivity|].
  cbn [poll_loop].
  destruct (errors_as_misses_tick w i) as (-> & -> & ->).
  rewrite IH.
  destruct (reply (w i)) as [coll|e]; reflexivity.
Qed.

Lemma poll_errors_as_misses sh w start timeoutMs :
  poll sh (errors_as_misses w) start timeoutMs = poll sh w start timeoutMs.
Proof. unfold poll. now rewrite poll_loop_errors_as_misses. Qed.

Lemma poll_null_runs_to_expiry sh w start timeoutMs :
  0 < interval sh ->
  truthy (poll sh w start timeoutMs) = false ->
  runs_to_expiry sh w start timeoutMs.
Proof.
  intros P T. destruct (poll_stops sh w start timeoutMs P) as [n S].
  pose proof S as [Before [(_ & T' & V)|[NB V]]].
  - rewrite <- V, T in T'. discriminate.
  - exists n. rewrite V in S. auto.
Qed.

Lemma poll_all_rejected sh w start timeoutMs :
  0 < interval sh ->
  (forall i, exists e, reply (w i) = Throw e) ->
  poll sh w start timeoutMs = JNull.
Proof.
  intros P H. apply poll_null_iff; [exact P|].
  intros i _. unfold seen. destruct (H i) as [e ->]. reflexivity.
Qed.

(** C6.  In each of the three loops a rejected query counts as an
    iteration that found nothing: the answer is the one obtained if every
    rejected query had found the collection empty; an answer without a
    match is reached only by running until the budget is spent; and when
    every query is rejected the loop still runs to that point. *)
Theorem C6_query_errors_are_misses :
  forall (w : World) (start timeoutMs : Z) (thingid deviceid sensorNo : JsVal),
    (waitForSlaveResponseFromMongoDB w start thingid timeoutMs
     = waitForSlaveResponseFromMongoDB (errors_as_misses w) start thingid timeoutMs
     /\ checkBaseRespondedInMongo w start deviceid timeoutMs
        = checkBaseRespondedInMongo (errors_as_misses w) start deviceid timeoutMs
     /\ checkTankRespondedInMongo w start deviceid sensorNo timeoutMs
        = checkTankRespondedInMongo (errors_as_misses w) start deviceid sensorNo
                                    timeoutMs)
    /\ (waitForSlaveResponseFromMongoDB w start thingid timeoutMs = JNull ->
        runs_to_expiry (slave_shape thingid) w start timeoutMs)
    /\ (checkBaseRespondedInMongo w start deviceid timeoutMs = false ->
        runs_to_expiry (base_shape deviceid) w start timeoutMs)
    /\ (checkTankRespondedInMongo w start deviceid sensorNo timeoutMs = false ->
        runs_to_expiry (tank_shape deviceid sensorNo) w start timeoutMs)
    /\ ((forall i, exists e, reply (w i) = Throw e) ->
        waitForSlaveResponseFromMongoDB w start thingid timeoutMs = JNull
        /\ checkBaseRespondedInMongo w start deviceid timeoutMs = false
        /\ checkTankRespondedInMongo w start deviceid sensorNo timeoutMs = false
        /\ runs_to_expiry (slave_shape thingid) w start timeoutMs
        /\ runs_to_expiry (base_shape deviceid) w start timeoutMs
        /\ runs_to_expiry (tank_shape deviceid sensorNo) w start timeoutMs).
Proof.
  intros w start timeoutMs thingid deviceid sensorNo.
  unfold waitForSlaveResponseFromMongoDB, checkBaseRespondedInMongo,
    checkTankRespondedInMongo.
  rewrite !poll_errors_as_misses.
  split; [auto|].
  split; [intros E; apply poll_null_runs_to_expiry;
          [apply slave_interval | now rewrite E]|].
  split; [apply poll_null_runs_to_expiry, base_interval|].
  split; [apply poll_null_runs_to_expiry, tank_interval|].
  intros H.
  rewrite (poll_all_rejected _ w start timeoutMs (slave_interval thingid) H).
  rewrite (poll_all_rejected _ w start timeoutMs (base_interval deviceid) H).
  rewrite (poll_all_rejected _ w start timeoutMs
                             (tank_interval deviceid sensorNo) H).
  repeat split; try reflexivity; apply poll_null_runs_to_expiry;
    try reflexivity;
    rewrite poll_all_rejected; auto; reflexivity.
Qed.

Lemma C6_query_errors_are_misses_witness :
  checkBaseRespondedInMongo Fixtures.broken 0 (JStr "D0") 5000 = false
  /\ runs_to_expiry (base_shape (JStr "D0")) Fixtures.broken 0 5000.
Proof.
  pose proof (C6_query_errors_are_misses
                Fixtures.broken 0 5000 (JStr "T0") (JStr "D0") (JNum 2)) as H.
  destruct H as (_ & _ & _ & _ & H).
  destruct H as (_ & B & _ & _ & R & _).
  - intros i. exists (Error "connection lost"). reflexivity.
  - split; [exact B | exact R].
Defined.


(** ** [slaveRequest] *)

Lemma slaveRequest_accepted env body :
  accepted env body ->
  slaveRequest env body =
  match publishToIoT env (topic_for env body) (build_payload body) with
  | Throw error =>
      (failure 500 (message error),
       [EResolve (field "deviceid" body);
        EPublish (topic_for env body) (build_payload body)])
  | Ok _ =>
      let effects :=
        [EResolve (field "deviceid" body);
         EPublish (topic_for env body) (build_payload body);
         EPoll (thing_of env body) 10000] in
      if truthy (polled env body) then
        ({| status := 200;
            json := JObj
              [("success", JBool true);
               ("message", JStr "Published and response received");
               ("data", reply_data body (polled env body))] |}, effects)
      else
        ({| status := 200;
            json := JObj
              [("success", JBool true);
               ("message", JStr "Published but no response received");
               ("data", JNull)] |}, effects)
  end.
Proof.
  intros (D & S & T).
  destruct (truthy_field_object _ _ D) as [fs ->].
  unfold slaveRequest, topic_for, polled, thing_of.
  rewrite D, S, T. reflexivity.
Qed.

Lemma slaveRequest_rejected env body :
  ~ accepted env body ->
  forall topic payload thingid timeoutMs,
    ~ In (EPublish topic payload) (snd (slaveRequest env body))
    /\ ~ In (EPoll thingid timeoutMs) (snd (slaveRequest env body)).
Proof.
  intros NA topic payload thingid timeoutMs.
  unfold accepted in NA. unfold slaveRequest.
  assert (E : forall (r : HttpResponse * list Effect) (e : Effect),
             (forall x, In x (snd r) -> exists d, x = EResolve d) ->
             (forall d, e <> EResolve d) -> ~ In e (snd r)).
  { intros r e H N I. destruct (H _ I) as [d ->]. now apply (N d). }
  assert (K : forall r : HttpResponse * list Effect,
             (forall x, In x (snd r) -> exists d, x = EResolve d) ->
             ~ In (EPublish topic payload) (snd r)
             /\ ~ In (EPoll thingid timeoutMs) (snd r)).
  { intros r H. split; apply E; auto; discriminate. }
  destruct body; try (apply K; simpl; intros x []); [].
  cbv beta iota zeta.
  destruct (truthy (field "deviceid" (JObj fields))) eqn:D; cbv [negb orb];
    [|apply K; simpl; intros x []].
  destruct (truthy (field "sensor_no" (JObj fields))) eqn:S; cbv [negb orb];
    [|apply K; simpl; intros x []].
  destruct (truthy (getThingIdByDeviceId _ _)) eqn:T; cbv [negb orb].
  - exfalso. apply NA. auto.
  - apply K. simpl. intros x [<-|[]]. eauto.
Qed.

(** C10.  A [sensor_no] of [0] or of the empty string is answered with the
    400 of a missing field, without resolving, publishing or polling, and
    the answer is the one a request without [sensor_no] gets. *)
Theorem C10_falsy_sensor_no_is_missing :
  forall env body fs,
    field "sensor_no" body = JNum 0 \/ field "sensor_no" body = JStr EmptyString ->
    field "sensor_no" (JObj fs) = JUndefined ->
    slaveRequest env body = (failure 400 "Missing deviceid or sensor_no", [])
    /\ slaveRequest env body = slaveRequest env (JObj fs).
Proof.
  intros env body fs Hb Ha.
  assert (B : exists bs, body = JObj bs).
  { destruct body; simpl in Hb; try (destruct Hb; discriminate); eauto. }
  destruct B as [bs ->].
  assert (Sb : truthy (field "sensor_no" (JObj bs)) = false)
    by (destruct Hb as [-> | ->]; reflexivity).
  unfold slaveRequest. rewrite Sb, Ha. simpl truthy.
  rewrite !orb_true_r. split; reflexivity.
Qed.

Lemma C10_falsy_sensor_no_is_missing_witness :
  slaveRequest (Fixtures.env_of Fixtures.db_scenario (Fixtures.steady []))
               (JObj [("deviceid", JStr "D1"); ("sensor_no", JNum 0)])
  = (failure 400 "Missing deviceid or sensor_no", []).
Proof.
  apply (C10_falsy_sensor_no_is_missing
           (Fixtures.env_of Fixtures.db_scenario (Fixtures.steady []))
           (JObj [("deviceid", JStr "D1"); ("sensor_no", JNum 0)])
           [("deviceid", JStr "D1")]).
  - left. reflexivity.
  - reflexivity.
Defined.



Lemma accepted_dec env body : accepted env body \/ ~ accepted env body.
Proof.
  unfold accepted.
  destruct (truthy (field "deviceid" body));
    destruct (truthy (field "sensor_no" body));
    destruct (truthy (getThingIdByDeviceId _ _));
    intuition congruence.
Qed.

Lemma slaveRequest_published env body topic payload :
  In (EPublish topic payload) (snd (slaveRequest env body)) ->
  accepted env body
  /\ topic = topic_for env body
  /\ payload = build_payload body.
Proof.
  intros I. destruct (accepted_dec env body) as [A|NA].
  - split; [exact A|].
    rewrite (slaveRequest_accepted env body A) in I.
    destruct (publishToIoT env _ _); [destruct (truthy (polled env body))|];
      simpl in I;
      repeat match goal with
             | H : _ \/ _ |- _ => destruct H
             | H : False |- _ => destruct H
             | H : EPublish _ _ = EPublish _ _ |- _ => inversion H; clear H
             | H : _ = EPublish _ _ |- _ => discriminate H
             end; auto.
  - exfalso.
    exact (proj1 (slaveRequest_rejected env body NA topic payload JNull 0) I).
Qed.

Lemma payload_fields body :
  let p := build_payload body in
  field "deviceid" p = field "deviceid" body
  /\ field "sensor_no" p = field "sensor_no" body
  /\ field "mode" p = published_mode (field "mode" body)
  /\ field "channel" p = parseInt (field "channel" body)
  /\ field "range" p = parseInt (field "range" body)
  /\ field "capacity" p = parseInt (field "capacity" body)
  /\ field "address_l" p = field "address_l" body
  /\ field "address_h" p = field "address_h" body
  /\ field "slaveid" p
     = (if truthy (field "slaveid" body) then field "slaveid" body
        else JUndefined)
  /\ has_field "slaveid" p = truthy (field "slaveid" body).
Proof.
  assert (M : or_else (parseInt (field "mode" body)) (JNum 3)
              = published_mode (field "mode" body)).
  { unfold published_mode, or_else.
    destruct (parseInt_number_or_NaN (field "mode" body)) as [[n ->]| ->];
      simpl; [destruct (n =? 0)|]; reflexivity. }
  unfold build_payload.
  destruct (truthy (field "slaveid" body)); cbn -[parseInt or_else field];
    cbn [field assoc String.eqb Ascii.eqb Bool.eqb]; rewrite ?M;
    repeat split; reflexivity.
Qed.

(** C8 (as the code has it).  The payload a call publishes carries
    [channel], [range] and [capacity] through [parseInt]; its [mode] is
    [parseInt(mode)] unless that is [NaN] or [0], in which case it is 3 --
    so a safe integer other than 0 is published as given; the device id,
    the sensor index and both address fields are the request's own;
    [slaveid] is present exactly when the request's is truthy, with the
    request's value. *)
Theorem C8_published_payload :
  forall env body topic payload,
    In (EPublish topic payload) (snd (slaveRequest env body)) ->
    payload = build_payload body
    /\ field "deviceid" payload = field "deviceid" body
    /\ field "sensor_no" payload = field "sensor_no" body
    /\ field "mode" payload = published_mode (field "mode" body)
    /\ (forall n, parseInt (field "mode" body) = JNum n -> n <> 0 ->
                  field "mode" payload = JNum n)
    /\ (forall n, field "mode" body = JNum n -> safe_integer n -> n <> 0 ->
                  field "mode" payload = JNum n)
    /\ (parseInt (field "mode" body) = JNum 0
        \/ parseInt (field "mode" body) = JNaN <->
        field "mode" payload = JNum 3
        /\ parseInt (field "mode" body) <> JNum 3)
    /\ field "channel" payload = parseInt (field "channel" body)
    /\ field "range" payload = parseInt (field "range" body)
    /\ field "capacity" payload = parseInt (field "capacity" body)
    /\ field "address_l" payload = field "address_l" body
    /\ field "address_h" payload = field "address_h" body
    /\ has_field "slaveid" payload = truthy (field "slaveid" body)
    /\ (truthy (field "slaveid" body) = true ->
        field "slaveid" payload = field "slaveid" body).
Proof.
  intros env body topic payload I.
  destruct (slaveRequest_published _ _ _ _ I) as (_ & _ & ->).
  destruct (payload_fields body)
    as (Hd & Hsn & Hm & Hc & Hr & Hcap & Hl & Hh & Hs & Hk).
  repeat match goal with |- _ /\ _ => split end; auto.
  - intros n E N. rewrite Hm. unfold published_mode. rewrite E.
    destruct (Z.eqb_spec n 0); [contradiction|reflexivity].
  - intros n E Safe N. rewrite Hm, E. unfold published_mode.
    rewrite (parseInt_integer n Safe).
    destruct (Z.eqb_spec n 0); [contradiction|reflexivity].
  - rewrite Hm. unfold published_mode. split.
    + intros [E|E]; rewrite E; simpl; split; congruence.
    + destruct (parseInt_number_or_NaN (field "mode" body)) as [[n E]|E];
        rewrite E; auto.
      destruct (Z.eqb_spec n 0) as [->|]; auto.
      intros [H N]. inversion H. subst. contradiction.
  - intros T. rewrite Hs, T. reflexivity.
Qed.

Lemma C8_published_payload_witness :
  let body := Fixtures.request [("mode", JStr "2"); ("channel", JStr "4");
                                ("range", JNum 10); ("capacity", JStr "500L")] in
  field "mode" (build_payload body) = JNum 2
  /\ field "capacity" (build_payload body) = JNum 500
  /\ field "deviceid" (build_payload body) = JStr "D1"
  /\ field "sensor_no" (build_payload body) = JNum 2.
Proof.
  intros body.
  pose proof (C8_published_payload
                (Fixtures.env_of Fixtures.db_scenario (Fixtures.steady []))
                body (JStr "slaveRequest/T0/slaveRequest") (build_payload body))
    as H.
  destruct H as (_ & Hd & Hs & Hm & _ & _ & _ & _ & _ & Hcap & _).
  - vm_compute. right. left. reflexivity.
  - split; [rewrite Hm|split; [rewrite Hcap|split; [rewrite Hd|rewrite Hs]]];
      reflexivity.
Defined.

(** C8, refuted as stated: a request with the numeric mode [0] is published
    with mode [3]. *)
Lemma C8_mode_zero_is_replaced :
  ~ (forall env body topic payload n,
        In (EPublish topic payload) (snd (slaveRequest env body)) ->
        field "mode" body = JNum n ->
        field "mode" payload = JNum n).
Proof.
  intros H.
  specialize (H (Fixtures.env_of Fixtures.db_scenario (Fixtures.steady []))
                (Fixtures.request [("mode", JNum 0)])
                (JStr "slaveRequest/T0/slaveRequest")
                (build_payload (Fixtures.request [("mode", JNum 0)]))
                0).
  assert (E : field "mode" (build_payload (Fixtures.request [("mode", JNum 0)]))
              = JNum 3) by reflexivity.
  rewrite E in H. discriminate H.
  - vm_compute. right. left. reflexivity.
  - reflexivity.
Qed.

(** ** The reply data *)

Lemma reply_data_fields body response :
  let rd := field "response_data" response in
  let data := reply_data body response in
  field "status" data = or_else (get_opt rd "status") (JStr "success")
  /\ field "channel" data
     = parseInt (or_else (get_opt rd "channel") (field "channel" body))
  /\ field "address_l" data
     = or_else (get_opt rd "address_l") (field "address_l" body)
  /\ field "address_h" data
     = or_else (get_opt rd "address_h") (field "address_h" body)
  /\ field "sensor_no" data
     = or_else (get_opt rd "sensor_no") (field "sensor_no" body)
  /\ field "slaveid" data = get_opt rd "slaveid".
Proof.
  intros rd data. repeat split; try reflexivity.
  unfold data, reply_data. fold rd.
  cbn [field assoc String.eqb Ascii.eqb Bool.eqb].
  unfold or_else. destruct (truthy (get_opt rd "channel")) eqn:T; [|reflexivity].
  f_equal. unfold get_opt in *. destruct rd; try discriminate T; reflexivity.
Qed.

(** C7 (as the code has it).  When a reply document was found, the [data]
    of the answer takes [channel], [address_l], [address_h] and
    [sensor_no] from the reply's [response_data] where that field is
    truthy and from the request otherwise ([channel] through [parseInt]
    either way); [status] is the reply's when truthy and the literal
    "success" otherwise; [slaveid] is the reply's field alone -- the
    request's [slaveid] is not consulted. *)
Theorem C7_reply_data_reconciled :
  forall env body,
    accepted env body ->
    publishToIoT env (topic_for env body) (build_payload body) = Ok tt ->
    truthy (polled env body) = true ->
    let rd := field "response_data" (polled env body) in
    let data := field "data" (json (fst (slaveRequest env body))) in
    status (fst (slaveRequest env body)) = 200
    /\ field "status" data = or_else (get_opt rd "status") (JStr "success")
    /\ field "channel" data
       = parseInt (or_else (get_opt rd "channel") (field "channel" body))
    /\ field "address_l" data
       = or_else (get_opt rd "address_l") (field "address_l" body)
    /\ field "address_h" data
       = or_else (get_opt rd "address_h") (field "address_h" body)
    /\ field "sensor_no" data
       = or_else (get_opt rd "sensor_no") (field "sensor_no" body)
    /\ field "slaveid" data = get_opt rd "slaveid".
Proof.
  intros env body A P T rd data.
  assert (E : data = reply_data body (polled env body)).
  { unfold data. rewrite (slaveRequest_accepted env body A), P, T.
    reflexivity. }
  split.
  - rewrite (slaveRequest_accepted env body A), P, T. reflexivity.
  - rewrite E. apply reply_data_fields.
Qed.

Lemma C7_reply_data_reconciled_witness :
  let env := Fixtures.env_of Fixtures.db_scenario
               (Fixtures.steady
                  [Fixtures.slave_reply "T0" 999500 [("channel", JStr "7")]]) in
  let body := Fixtures.request [("channel", JStr "4"); ("address_l", JNum 16)] in
  field "channel" (field "data" (json (fst (slaveRequest env body)))) = JNum 7
  /\ field "address_l" (field "data" (json (fst (slaveRequest env body))))
     = JNum 16.
Proof.
  intros env body.
  assert (A : accepted env body) by (repeat split; reflexivity).
  pose proof (C7_reply_data_reconciled env body A) as H. cbv zeta in H.
  destruct H as (_ & _ & Hc & Hl & _); try reflexivity.
  split; [rewrite Hc | rewrite Hl]; reflexivity.
Defined.

(** C7, refuted as stated: the reply carries no [slaveid], the request
    does, and the answer's [slaveid] is [undefined]. *)
Lemma C7_slaveid_has_no_fallback :
  let reply := Fixtures.slave_reply "T0" 999500 [("status", JStr "ok")] in
  let env := Fixtures.env_of Fixtures.db_scenario (Fixtures.steady [reply]) in
  let body := Fixtures.request [("channel", JStr "4"); ("slaveid", JStr "S1")] in
  polled env body = reply
  /\ has_field "slaveid" (field "response_data" reply) = false
  /\ field "slaveid" body = JStr "S1"
  /\ status (fst (slaveRequest env body)) = 200
  /\ field "slaveid" (field "data" (json (fst (slaveRequest env body))))
     = JUndefined.
Proof. repeat split; reflexivity. Qed.

(* ===================================================================== *)
(** * Further properties *)
(* ===================================================================== *)

(** ** [getThingIdByDeviceId] *)

Lemma visit_device_result deviceid devices d v :
  visit_device deviceid devices d = Ok (Some v) ->
  v = JNull \/ truthy v = true.
Proof.
  unfold visit_device.
  destruct (get d "device_id") as [id|]; simpl; [|discriminate].
  destruct (strict_eq id deviceid); simpl; [|discriminate].
  assert (F : forall r : Result (option JsVal),
             r = (if truthy (thing_name_of d)
                  then Ok (Some (thing_name_of d)) else Ok None) ->
             r = Ok (Some v) -> v = JNull \/ truthy v = true).
  { intros r -> H. destruct (truthy (thing_name_of d)) eqn:T;
      inversion H; subst; auto. }
  assert (K : forall r : Result (option JsVal),
             r = (if strict_eq (field "device_type" d) (JStr "tank") then
                    if negb (truthy (field "parent_device_id" d))
                    then Ok (Some JNull)
                    else
                      baseDevice <- devices_find (field "parent_device_id" d)
                                                 devices ;;
                      if truthy baseDevice then
                        if truthy (thing_name_of baseDevice)
                        then Ok (Some (thing_name_of baseDevice))
                        else if truthy (thing_name_of d)
                             then Ok (Some (thing_name_of d)) else Ok None
                      else if truthy (thing_name_of d)
                           then Ok (Some (thing_name_of d)) else Ok None
                  else if truthy (thing_name_of d)
                       then Ok (Some (thing_name_of d)) else Ok None) ->
             r = Ok (Some v) -> v = JNull \/ truthy v = true).
  { intros r -> H.
    destruct (strict_eq (field "device_type" d) (JStr "tank"));
      [|now apply (F _ eq_refl)].
    destruct (truthy (field "parent_device_id" d)); simpl in H;
      [|inversion H; auto].
    destruct (devices_find _ _) as [b|]; simpl in H; [|discriminate].
    destruct (truthy b); [|now apply (F _ eq_refl)].
    destruct (truthy (thing_name_of b)) eqn:T; [|now apply (F _ eq_refl)].
    inversion H; subst; auto. }
  destruct (strict_eq (field "device_type" d) (JStr "base")) eqn:B.
  - destruct (truthy (thing_name_of d)) eqn:T.
    + intros H. inversion H; subst; auto.
    + apply K. rewrite ?T. reflexivity.
  - apply K. reflexivity.
Qed.

Lemma scan_devices_result deviceid devices ds v :
  scan_devices deviceid devices ds = Ok (Some v) ->
  v = JNull \/ truthy v = true.
Proof.
  induction ds as [|d r IH]; simpl; [discriminate|].
  destruct (visit_device deviceid devices d) as [[x|]|] eqn:V; simpl.
  - intros H. inversion H; subst. now apply visit_device_result in V.
  - exact IH.
  - discriminate.
Qed.

Lemma scan_spaces_result deviceid spaces v :
  scan_spaces deviceid spaces = Ok (Some v) ->
  v = JNull \/ truthy v = true.
Proof.
  induction spaces as [|s r IH]; simpl; [discriminate|].
  destruct (visit_space deviceid s) as [[x|]|] eqn:V; simpl.
  - intros H. inversion H; subst. unfold visit_space in V.
    destruct (get s "devices") as [devs|]; simpl in V; [|discriminate].
    destruct (truthy devs); simpl in V; [|discriminate].
    destruct (iterate devs) as [ds|]; simpl in V; [|discriminate].
    now apply scan_devices_result in V.
  - exact IH.
  - discriminate.
Qed.

(** X1.  The resolver hands back [null] or a truthy value, never a falsy
    alias such as the empty string or [0]. *)
Theorem X1_resolve_null_or_truthy :
  forall d0 deviceid,
    getThingIdByDeviceId d0 deviceid = JNull
    \/ truthy (getThingIdByDeviceId d0 deviceid) = true.
Proof.
  intros d0 deviceid. unfold getThingIdByDeviceId.
  destruct (truthy deviceid); simpl; [|auto].
  destruct (caught (from_sensor_metadata d0 deviceid)) as [v|] eqn:S.
  - right. unfold from_sensor_metadata in S.
    destruct (sensor_metadata_findOne d0 deviceid) as [row|]; simpl in S;
      [|discriminate].
    destruct (truthy row); simpl in S; [|discriminate].
    destruct (truthy (row_thingid row)) eqn:T; simpl in S; [|discriminate].
    inversion S; subst. exact T.
  - destruct (caught (from_users d0 deviceid)) as [v|] eqn:U; [|auto].
    unfold from_users in U.
    destruct (users_findOne d0 deviceid) as [doc|]; simpl in U; [|discriminate].
    destruct (truthy doc && truthy (field "spaces" doc)); simpl in U;
      [|discriminate].
    destruct (iterate (field "spaces" doc)) as [spaces|]; simpl in U;
      [|discriminate].
    destruct (scan_spaces deviceid spaces) as [[x|]|] eqn:R; simpl in U;
      try discriminate.
    inversion U; subst. now apply scan_spaces_result in R.
Qed.

(** X2.  A rejected query of either collection is handled as a query that
    finds nothing: the result is the one over the store whose rejections
    are replaced by empty answers. *)
Theorem X2_resolve_rejections_as_absent :
  forall d0 deviceid,
    getThingIdByDeviceId (rejections_as_absent d0) deviceid
    = getThingIdByDeviceId d0 deviceid.
Proof.
  intros d0 deviceid. unfold getThingIdByDeviceId.
  destruct (truthy deviceid); simpl; [|reflexivity].
  assert (S : caught (from_sensor_metadata (rejections_as_absent d0) deviceid)
              = caught (from_sensor_metadata d0 deviceid)).
  { unfold from_sensor_metadata, rejections_as_absent. simpl.
    destruct (sensor_metadata_findOne d0 deviceid); reflexivity. }
  assert (U : caught (from_users (rejections_as_absent d0) deviceid)
              = caught (from_users d0 deviceid)).
  { unfold from_users, rejections_as_absent. simpl.
    destruct (users_findOne d0 deviceid); reflexivity. }
  now rewrite S, U.
Qed.

Lemma resolve_reaches d0 deviceid devices d v :
  reaches d0 deviceid devices d ->
  visit_device deviceid (JArr devices) d = Ok (Some v) ->
  getThingIdByDeviceId d0 deviceid = v.
Proof.
  intros (T & S & userDoc & spre & space & spost & pre & post
          & U & Sp & Skip & Dv & -> & Other & E) V.
  destruct (field_array_object _ _ _ Sp) as [ufs ->].
  destruct (field_array_object _ _ _ Dv) as [sfs ->].
  unfold getThingIdByDeviceId. rewrite T, S. simpl negb. cbv iota.
  unfold from_users. rewrite U. cbn [bind truthy andb].
  rewrite Sp. cbn [truthy iterate bind].
  rewrite (scan_spaces_skip _ _ _ Skip). cbn [scan_spaces].
  unfold visit_space at 1. cbn [get]. rewrite Dv. cbn [truthy negb iterate bind].
  rewrite scan_devices_skip.
  - cbn [scan_devices]. rewrite V. reflexivity.
  - intros x I. destruct (Other x I) as (id & G & Ne).
    now apply visit_device_other with id.
Qed.

Lemma get_matching_device d deviceid :
  strict_eq (field "device_id" d) deviceid = true ->
  truthy deviceid = true ->
  get d "device_id" = Ok (field "device_id" d).
Proof.
  intros E T.
  destruct d; try reflexivity; simpl in E; destruct deviceid; discriminate.
Qed.

Lemma thing_name_first d :
  thing_name_of d
  = (if truthy (field "thing_name" d) then field "thing_name" d
     else if truthy (field "thingid" d) then field "thingid" d
          else if truthy (field "thingId" d) then field "thingId" d
               else field "thing_id" d).
Proof.
  unfold thing_name_of, or_else.
  destruct (truthy (field "thing_name" d)) eqn:A; cbv iota;
    rewrite ?A; cbv iota; rewrite ?A; [reflexivity|].
  destruct (truthy (field "thingid" d)) eqn:B; cbv iota;
    rewrite ?B; cbv iota; [reflexivity|].
  destruct (truthy (field "thingId" d)) eqn:C; cbv iota;
    rewrite ?C; reflexivity.
Qed.

(** X3.  When the first record with the device id is not a tank and
    carries a name, the resolver returns that name: the first truthy one
    of [thing_name], [thingid], [thingId], [thing_id]. *)
Theorem X3_resolve_own_name_by_priority :
  forall d0 deviceid devices d,
    reaches d0 deviceid devices d ->
    strict_eq (field "device_type" d) (JStr "tank") = false ->
    truthy (thing_name_of d) = true ->
    getThingIdByDeviceId d0 deviceid
    = (if truthy (field "thing_name" d) then field "thing_name" d
       else if truthy (field "thingid" d) then field "thingid" d
            else if truthy (field "thingId" d) then field "thingId" d
                 else field "thing_id" d).
Proof.
  intros d0 deviceid devices d R Ty N.
  rewrite <- thing_name_first.
  apply (resolve_reaches d0 deviceid devices d _ R).
  destruct R as (T & _ & _ & _ & _ & _ & _ & _ & _ & _ & _ & _ & _ & _ & E).
  unfold visit_device. rewrite (get_matching_device d deviceid E T).
  simpl. rewrite E, Ty, N. simpl.
  destruct (strict_eq (field "device_type" d) (JStr "base")); reflexivity.
Qed.

(** X4.  When the first record with the device id is a tank without a
    [parent_device_id], resolution ends with [null] there: neither a name
    on the tank record nor any later record is consulted. *)
Theorem X4_resolve_tank_without_parent :
  forall d0 deviceid devices d,
    reaches d0 deviceid devices d ->
    field "device_type" d = JStr "tank" ->
    truthy (field "parent_device_id" d) = false ->
    getThingIdByDeviceId d0 deviceid = JNull.
Proof.
  intros d0 deviceid devices d R Ty P.
  apply (resolve_reaches d0 deviceid devices d _ R).
  destruct R as (T & _ & _ & _ & _ & _ & _ & _ & _ & _ & _ & _ & _ & _ & E).
  now apply visit_tank_without_parent.
Qed.

Lemma account_reaches known (pre : list JsVal) d post id :
  id <> EmptyString ->
  existsb (fun k => strict_eq (JStr k) (JStr id)) known = true ->
  (forall x, In x pre ->
             exists i, get x "device_id" = Ok i
                       /\ strict_eq i (JStr id) = false) ->
  strict_eq (field "device_id" d) (JStr id) = true ->
  reaches (Fixtures.account known (pre ++ d :: post)) (JStr id)
          (pre ++ d :: post) d.
Proof.
  intros N K Other E. unfold reaches. split.
  - simpl. destruct id; [congruence|reflexivity].
  - split; [reflexivity|].
    exists (JObj [("spaces",
                   JArr [JObj [("devices", JArr (pre ++ d :: post))]])]),
      [], (JObj [("devices", JArr (pre ++ d :: post))]), [], pre, post.
    unfold Fixtures.account. cbn [users_findOne]. rewrite K.
    repeat split; auto. intros s [].
Qed.

Lemma X3_resolve_own_name_by_priority_witness :
  getThingIdByDeviceId
    (Fixtures.account ["D2"]
       [Fixtures.base "D0" "T0";
        JObj [("device_id", JStr "D2"); ("device_type", JStr "base");
              ("thing_id", JStr "low"); ("thingId", JStr "high")]])
    (JStr "D2")
  = JStr "high".
Proof.
  apply (X3_resolve_own_name_by_priority
           _ (JStr "D2")
           ([Fixtures.base "D0" "T0"] ++
            JObj [("device_id", JStr "D2"); ("device_type", JStr "base");
                  ("thing_id", JStr "low"); ("thingId", JStr "high")] :: [])%list
           (JObj [("device_id", JStr "D2"); ("device_type", JStr "base");
                  ("thing_id", JStr "low"); ("thingId", JStr "high")])).
  - apply (account_reaches ["D2"] [Fixtures.base "D0" "T0"] _ [] "D2").
    + discriminate.
    + reflexivity.
    + intros x [<-|[]]. exists (JStr "D0"). split; reflexivity.
    + reflexivity.
  - reflexivity.
  - reflexivity.
Defined.

Lemma X4_resolve_tank_without_parent_witness :
  getThingIdByDeviceId
    (Fixtures.account ["D1"]
       [JObj [("device_id", JStr "D1"); ("device_type", JStr "tank");
              ("thing_name", JStr "T1")];
        JObj [("device_id", JStr "D1"); ("device_type", JStr "valve");
              ("thing_name", JStr "T9")]])
    (JStr "D1")
  = JNull.
Proof.
  apply (X4_resolve_tank_without_parent
           _ (JStr "D1")
           ([] ++
            JObj [("device_id", JStr "D1"); ("device_type", JStr "tank");
                  ("thing_name", JStr "T1")]
            :: [JObj [("device_id", JStr "D1"); ("device_type", JStr "valve");
                      ("thing_name", JStr "T9")]])%list
           (JObj [("device_id", JStr "D1"); ("device_type", JStr "tank");
                  ("thing_name", JStr "T1")])).
  - apply (account_reaches ["D1"] [] _ _ "D1").
    + discriminate.
    + reflexivity.
    + intros x [].
    + reflexivity.
  - reflexivity.
  - reflexivity.
Defined.

(** ** The polling loops *)

Section Budget.
Variable sh : Shape.
Variable w : World.
Variable start : Z.
Hypothesis interval_pos : 0 < interval sh.

Lemma poll_null_or_truthy timeoutMs :
  poll sh w start timeoutMs = JNull
  \/ truthy (poll sh w start timeoutMs) = true.
Proof.
  destruct (poll_stops sh w start timeoutMs interval_pos)
    as [n [_ [(_ & T & ->)|[_ ->]]]]; auto.
Qed.

(** A document is handed back exactly when an iteration within the budget
    sees one. *)
Lemma poll_truthy_iff timeoutMs :
  truthy (poll sh w start timeoutMs) = true
  <-> exists i, in_budget sh w start timeoutMs i
                /\ truthy (seen sh w start i) = true.
Proof.
  split.
  - intros T.
    destruct (poll_stops sh w start timeoutMs interval_pos)
      as [n [_ [(B & Tn & V)|[_ V]]]].
    + eauto.
    + rewrite V in T. discriminate.
  - intros (i & B & T).
    destruct (poll_null_or_truthy timeoutMs) as [E|E]; [|exact E].
    rewrite (poll_null_iff sh w start timeoutMs interval_pos) in E.
    rewrite (E i B) in T. discriminate.
Qed.

(** A larger budget never loses a document. *)
Lemma poll_budget_mono timeoutMs timeoutMs' :
  timeoutMs <= timeoutMs' ->
  truthy (poll sh w start timeoutMs) = true ->
  poll sh w start timeoutMs' = poll sh w start timeoutMs.
Proof.
  intros L T.
  destruct (poll_stops sh w start timeoutMs interval_pos)
    as [n [Before [(B & Tn & V)|[_ V]]]]; [|rewrite V in T; discriminate].
  destruct (poll_stops sh w start timeoutMs' interval_pos) as [n' S'].
  assert (S : stops_at sh w start timeoutMs' n (poll sh w start timeoutMs)).
  { split.
    - intros j Lj. destruct (Before j Lj) as [Bj Ej]. split; [|exact Ej].
      unfold in_budget in *. lia.
    - left. unfold in_budget in *. repeat split; auto. lia. }
  destruct (stops_at_unique sh w start timeoutMs' _ _ _ _ S' S) as [_ E].
  exact E.
Qed.

Lemma in_budget_bound timeoutMs i :
  in_budget sh w start timeoutMs i -> Z.of_nat i * interval sh < timeoutMs.
Proof.
  unfold in_budget. intros B.
  pose proof (guard_time_lower sh w start i). lia.
Qed.

Lemma poll_no_budget timeoutMs :
  timeoutMs <= 0 -> poll sh w start timeoutMs = JNull.
Proof.
  intros L. apply poll_null_iff; [exact interval_pos|].
  intros i B. apply in_budget_bound in B.
  assert (0 <= Z.of_nat i * interval sh) by nia. lia.
Qed.


End Budget.

Lemma truthy_seen sh w start i :
  truthy (seen sh w start i) = true
  <-> exists coll d,
      reply (w i) = Ok coll /\ In d coll
      /\ qualifies (clauses sh) (key sh)
                   (since_time sh w start i - window sh) d = true.
Proof.
  split.
  - intros T. destruct (reply (w i)) as [coll|e] eqn:R.
    + assert (N : seen sh w start i <> JNull)
        by (intros E; rewrite E in T; discriminate).
      unfold seen in N. rewrite R in N.
      destruct (findOne_latest_doc _ _ _ coll N) as (I & O & _).
      eauto.
    + unfold seen in T. rewrite R in T. discriminate.
  - intros (coll & d & R & I & O).
    destruct (seen_cases sh w start i) as [E|E]; [|exact E].
    apply seen_null in E. rewrite R in E. rewrite (E d I) in O. discriminate.
Qed.


(** X5.  A larger time budget never loses a reply: a poll that finds a
    document within [timeoutMs] finds the same document within any larger
    budget, in each of the three loops. *)
Theorem X5_larger_budget_keeps_reply :
  forall (w : World) (start timeoutMs timeoutMs' : Z)
         (thingid deviceid sensorNo : JsVal),
    timeoutMs <= timeoutMs' ->
    (truthy (waitForSlaveResponseFromMongoDB w start thingid timeoutMs) = true ->
     waitForSlaveResponseFromMongoDB w start thingid timeoutMs'
     = waitForSlaveResponseFromMongoDB w start thingid timeoutMs)
    /\ (checkBaseRespondedInMongo w start deviceid timeoutMs = true ->
        checkBaseRespondedInMongo w start deviceid timeoutMs' = true)
    /\ (checkTankRespondedInMongo w start deviceid sensorNo timeoutMs = true ->
        checkTankRespondedInMongo w start deviceid sensorNo timeoutMs' = true).
Proof.
  intros w start timeoutMs timeoutMs' thingid deviceid sensorNo L.
  unfold waitForSlaveResponseFromMongoDB, checkBaseRespondedInMongo,
    checkTankRespondedInMongo.
  repeat split; intros T.
  - now apply poll_budget_mono.
  - rewrite (poll_budget_mono _ w start (base_interval deviceid) _ _ L T).
    exact T.
  - rewrite (poll_budget_mono _ w start (tank_interval deviceid sensorNo)
                              _ _ L T).
    exact T.
Qed.

Lemma X5_larger_budget_keeps_reply_witness :
  waitForSlaveResponseFromMongoDB
    (Fixtures.steady [Fixtures.slave_reply "T0" 999500 []])
    1000000 (JStr "T0") 60000
  = waitForSlaveResponseFromMongoDB
      (Fixtures.steady [Fixtures.slave_reply "T0" 999500 []])
      1000000 (JStr "T0") 10000.
Proof.
  apply (X5_larger_budget_keeps_reply
           (Fixtures.steady [Fixtures.slave_reply "T0" 999500 []])
           1000000 10000 60000 (JStr "T0") (JStr "D0") (JNum 2)).
  - lia.
  - reflexivity.
Defined.

(** X6.  The liveness check answers [true] exactly when the query of some
    iteration that begins within the budget is answered and the
    collection then holds an [alive_reply] of the device whose
    [timestamp] lies within the 10000 ms before that iteration's clock
    reading; the sensor check likewise, for an [update] of the device and
    sensor. *)
Theorem X6_checks_true_iff_seen :
  forall (w : World) (start timeoutMs : Z) (deviceid sensorNo : JsVal),
    (checkBaseRespondedInMongo w start deviceid timeoutMs = true
     <-> exists i coll d,
         in_budget (base_shape deviceid) w start timeoutMs i
         /\ reply (w i) = Ok coll /\ In d coll
         /\ qualifies [("deviceid", deviceid);
                       ("message_type", JStr "alive_reply")]
                      "timestamp"
                      (since_time (base_shape deviceid) w start i - 10000) d
            = true)
    /\ (checkTankRespondedInMongo w start deviceid sensorNo timeoutMs = true
        <-> exists i coll d,
            in_budget (tank_shape deviceid sensorNo) w start timeoutMs i
            /\ reply (w i) = Ok coll /\ In d coll
            /\ qualifies [("deviceid", deviceid); ("sensor_no", sensorNo);
                          ("message_type", JStr "update")]
                         "timestamp"
                         (since_time (tank_shape deviceid sensorNo) w start i
                          - 10000) d
               = true).
Proof.
  intros w start timeoutMs deviceid sensorNo.
  unfold checkBaseRespondedInMongo, checkTankRespondedInMongo.
  split.
  - rewrite (poll_truthy_iff _ w start (base_interval deviceid)).
    split.
    + intros (i & B & T). apply truthy_seen in T as (coll & d & R & I & O).
      exists i, coll, d. auto.
    + intros (i & coll & d & B & R & I & O). exists i. split; [exact B|].
      apply truthy_seen. exists coll, d. auto.
  - rewrite (poll_truthy_iff _ w start (tank_interval deviceid sensorNo)).
    split.
    + intros (i & B & T). apply truthy_seen in T as (coll & d & R & I & O).
      exists i, coll, d. auto.
    + intros (i & coll & d & B & R & I & O). exists i. split; [exact B|].
      apply truthy_seen. exists coll, d. auto.
Qed.

(** X7.  With a budget of zero or less each of the three loops answers
    "no reply" at once, whatever the collection holds or answers. *)
Theorem X7_no_budget_no_reply :
  forall (w : World) (start timeoutMs : Z) (thingid deviceid sensorNo : JsVal),
    timeoutMs <= 0 ->
    waitForSlaveResponseFromMongoDB w start thingid timeoutMs = JNull
    /\ checkBaseRespondedInMongo w start deviceid timeoutMs = false
    /\ checkTankRespondedInMongo w start deviceid sensorNo timeoutMs = false.
Proof.
  intros w start timeoutMs thingid deviceid sensorNo L.
  unfold waitForSlaveResponseFromMongoDB, checkBaseRespondedInMongo,
    checkTankRespondedInMongo.
  rewrite !poll_no_budget by (auto; reflexivity).
  repeat split.
Qed.

Lemma X7_no_budget_no_reply_witness :
  checkBaseRespondedInMongo
    (Fixtures.steady
       [JObj [("deviceid", JStr "D0"); ("message_type", JStr "alive_reply");
              ("timestamp", JDate 999900)]])
    1000000 (JStr "D0") 0
  = false.
Proof.
  apply (X7_no_budget_no_reply
           (Fixtures.steady
              [JObj [("deviceid", JStr "D0");
                     ("message_type", JStr "alive_reply");
                     ("timestamp", JDate 999900)]])
           1000000 0 (JStr "T0") (JStr "D0") (JNum 2)).
  lia.
Defined.



Lemma X6_checks_true_iff_seen_witness :
  checkBaseRespondedInMongo
    (Fixtures.steady
       [JObj [("deviceid", JStr "D0"); ("message_type", JStr "alive_reply");
              ("timestamp", JDate 999900)]])
    1000000 (JStr "D0") 5000
  = true.
Proof.
  apply (proj1 (X6_checks_true_iff_seen
                  (Fixtures.steady
                     [JObj [("deviceid", JStr "D0");
                            ("message_type", JStr "alive_reply");
                            ("timestamp", JDate 999900)]])
                  1000000 5000 (JStr "D0") (JNum 2))).
  exists 0%nat,
    [JObj [("deviceid", JStr "D0"); ("message_type", JStr "alive_reply");
           ("timestamp", JDate 999900)]],
    (JObj [("deviceid", JStr "D0"); ("message_type", JStr "alive_reply");
           ("timestamp", JDate 999900)]).
  split; [|split; [|split]].
  - unfold in_budget. simpl. lia.
  - reflexivity.
  - left. reflexivity.
  - reflexivity.
Defined.

(** ** [sanitizeMongoDoc] *)

(** X9.  In a normalized document [_id] is never left as an ObjectId or
    any other truthy non-string: it is the printed form of the stored
    identifier -- the hex string of an ObjectId -- and a falsy or missing
    [_id] leaves the document as it was. *)
Theorem X9_sanitize_id_is_printed :
  forall fs,
    let out := sanitizeMongoDoc (JObj fs) in
    (forall hex, field "_id" (JObj fs) = JObjectId hex ->
                 field "_id" out = JStr hex)
    /\ (truthy (field "_id" (JObj fs)) = true ->
        field "_id" out = JStr (to_string (field "_id" (JObj fs))))
    /\ (truthy (field "_id" (JObj fs)) = false -> out = JObj fs)
    /\ ((exists s, field "_id" out = JStr s)
        \/ truthy (field "_id" out) = false).
Proof.
  intros fs out. unfold out. rewrite sanitize_object.
  destruct (truthy (field "_id" (JObj fs))) eqn:T.
  - rewrite field_set_same. unfold id_toString.
    repeat split; eauto; try discriminate.
    intros hex E. rewrite E. reflexivity.
  - repeat split; auto; try discriminate.
    intros hex E. rewrite E in T. discriminate.
Qed.

Lemma X9_sanitize_id_is_printed_witness :
  field "_id" (sanitizeMongoDoc (Fixtures.slave_reply "T0" 5 []))
  = JStr "65f0c0ffee65f0c0ffee0001".
Proof.
  unfold Fixtures.slave_reply.
  apply (proj1 (X9_sanitize_id_is_printed _)). reflexivity.
Defined.

(** ** [getRecentDeviceResponses] *)

Section SortDesc.
Variable key : string.

(** [a] does not sort after [b]. *)
Let ahead (a b : JsVal) : Prop := sorts_after key a b = false.

Lemma sorts_after_asym a b :
  sorts_after key a b = true -> sorts_after key b a = false.
Proof.
  unfold sorts_after.
  destruct (stamp key a) as [ta|], (stamp key b) as [tb|]; try discriminate;
    auto.
  intros H. apply Z.ltb_lt in H. apply Z.ltb_ge. lia.
Qed.

Lemma ahead_trans a b c : ahead a b -> ahead b c -> ahead a c.
Proof.
  unfold ahead, sorts_after.
  destruct (stamp key a) as [ta|], (stamp key b) as [tb|],
           (stamp key c) as [tc|]; try discriminate; auto.
  intros H1 H2. apply Z.ltb_ge in H1, H2. apply Z.ltb_ge. lia.
Qed.

Lemma insert_desc_perm x l : Permutation (insert_desc key x l) (x :: l).
Proof.
  induction l as [|y r IH]; simpl; [apply Permutation_refl|].
  destruct (sorts_after key x y); [|apply Permutation_refl].
  apply Permutation_trans with (y :: x :: r).
  - now apply perm_skip.
  - apply perm_swap.
Qed.

Lemma sort_desc_perm l : Permutation (sort_desc key l) l.
Proof.
  induction l as [|x r IH]; simpl; [constructor|].
  apply Permutation_trans with (x :: sort_desc key r).
  - apply insert_desc_perm.
  - now apply perm_skip.
Qed.

Lemma insert_desc_sorted x l :
  Sorted ahead l -> Sorted ahead (insert_desc key x l).
Proof.
  induction l as [|y r IH]; intros S; simpl.
  - repeat constructor.
  - destruct (sorts_after key x y) eqn:A.
    + inversion S as [|? ? Sr Hd]; subst. constructor; [now apply IH|].
      destruct r as [|z r']; simpl.
      * constructor. now apply sorts_after_asym.
      * destruct (sorts_after key x z); constructor.
        -- now inversion Hd.
        -- now apply sorts_after_asym.
    + constructor; [exact S|]. constructor. exact A.
Qed.

Lemma sort_desc_sorted l : StronglySorted ahead (sort_desc key l).
Proof.
  apply Sorted_StronglySorted.
  - intros a b c. apply ahead_trans.
  - induction l as [|x r IH]; simpl; [constructor|].
    now apply insert_desc_sorted.
Qed.

Lemma ahead_not_older a b :
  (exists t, stamp key a = Some t) -> (exists t, stamp key b = Some t) ->
  ahead a b -> not_older key b a.
Proof.
  intros [ta Ha] [tb Hb]. unfold ahead, sorts_after. rewrite Ha, Hb.
  intros H. apply Z.ltb_ge in H. exists tb, ta. auto.
Qed.

End SortDesc.

Lemma qualifies_object eqs key since d :
  qualifies eqs key since d = true -> exists fs, d = JObj fs.
Proof.
  intros Q. destruct (qualifies_stamp eqs key since d Q) as (t & S & _).
  unfold stamp in S. destruct d; simpl in S; try discriminate. eauto.
Qed.

Lemma qualifies_earlier eqs key since since' d :
  since' <= since ->
  qualifies eqs key since d = true -> qualifies eqs key since' d = true.
Proof.
  unfold qualifies. intros L Q. apply andb_prop in Q as [E S].
  rewrite E. simpl. destruct (stamp key d); [|discriminate].
  apply Z.leb_le in S. apply Z.leb_le. lia.
Qed.

Lemma sanitize_keeps_stamp key fs :
  key <> "_id" ->
  stamp key (sanitizeMongoDoc (JObj fs)) = stamp key (JObj fs).
Proof.
  intros N. unfold stamp. rewrite sanitize_object.
  destruct (truthy (field "_id" (JObj fs))); [|reflexivity].
  simpl. now rewrite assoc_set_other.
Qed.

Lemma find_recent_in thingid cutoff coll d :
  In d (find_recent thingid cutoff coll)
  <-> In d coll
      /\ qualifies [("thingid", thingid)] "inserted_at" cutoff d = true.
Proof.
  unfold find_recent. split.
  - intros I. apply filter_In.
    eapply Permutation_in; [apply sort_desc_perm|exact I].
  - intros I. apply filter_In in I.
    eapply Permutation_in; [apply Permutation_sym, sort_desc_perm|exact I].
Qed.

(** X10.  The answer holds, normalized, exactly the documents of the
    collection that carry the requested [thingid] and an [inserted_at]
    date within the last [seconds] seconds (10 when left out), each as
    often as the collection has it; a rejected query gives the empty
    list. *)
Theorem X10_recent_is_the_window :
  forall (now : Z) (thingid : JsVal) (seconds : option Z) (coll : list JsVal),
    let cutoff := now - (match seconds with Some s => s | None => 10 end) * 1000 in
    let wanted := qualifies [("thingid", thingid)] "inserted_at" cutoff in
    let out := getRecentDeviceResponses (Ok coll) now thingid seconds in
    Permutation out (map sanitizeMongoDoc (filter wanted coll))
    /\ (forall r, In r out
                  <-> exists d, In d coll /\ wanted d = true
                                /\ r = sanitizeMongoDoc d)
    /\ List.length out = List.length (filter wanted coll)
    /\ forall e, getRecentDeviceResponses (Throw e) now thingid seconds = [].
Proof.
  intros now thingid seconds coll cutoff wanted out.
  assert (P : Permutation out (map sanitizeMongoDoc (filter wanted coll))).
  { unfold out, getRecentDeviceResponses, find_recent. fold cutoff. fold wanted.
    apply Permutation_map, sort_desc_perm. }
  repeat split.
  - exact P.
  - intros I. apply (Permutation_in _ P) in I. apply in_map_iff in I.
    destruct I as (d & E & I). apply filter_In in I. exists d.
    destruct I. auto.
  - intros (d & I & Q & ->).
    apply (Permutation_in _ (Permutation_sym P)).
    apply in_map. apply filter_In. auto.
  - rewrite (Permutation_length P). apply List.length_map.
Qed.

(** X11.  The answer is ordered newest first: every document is at least
    as recent, by [inserted_at], as each document after it. *)
Theorem X11_recent_newest_first :
  forall (answer : Result (list JsVal)) (now : Z) (thingid : JsVal)
         (seconds : option Z),
    StronglySorted (fun a b => not_older "inserted_at" b a)
                   (getRecentDeviceResponses answer now thingid seconds).
Proof.
  intros [coll|e] now thingid seconds; [|constructor].
  unfold getRecentDeviceResponses.
  set (cutoff := now - _ * 1000).
  assert (Q : forall d, In d (find_recent thingid cutoff coll) ->
                        exists fs t, d = JObj fs
                                     /\ stamp "inserted_at" d = Some t).
  { intros d I. apply find_recent_in in I as [_ Q].
    destruct (qualifies_object _ _ _ _ Q) as [fs ->].
    destruct (qualifies_stamp _ _ _ _ Q) as (t & S & _). eauto. }
  pose proof (sort_desc_sorted "inserted_at"
                (filter (qualifies [("thingid", thingid)] "inserted_at" cutoff)
                        coll)) as S.
  fold (find_recent thingid cutoff coll) in S.
  induction S as [|a l Sl IH Hd]; simpl; constructor.
  - apply IH. intros d I. apply Q. now right.
  - apply Forall_forall. intros r I. apply in_map_iff in I as (b & <- & Ib).
    rewrite Forall_forall in Hd. specialize (Hd b Ib).
    destruct (Q a (or_introl eq_refl)) as (fa & ta & -> & Sa).
    destruct (Q b (or_intror Ib)) as (fb & tb & -> & Sb).
    apply ahead_not_older.
    + rewrite sanitize_keeps_stamp by discriminate. eauto.
    + rewrite sanitize_keeps_stamp by discriminate. eauto.
    + unfold sorts_after in *.
      rewrite !sanitize_keeps_stamp by discriminate. exact Hd.
Qed.

(** X12.  Every document of the answer is already normalized --
    normalizing the answer again changes nothing -- and its [_id], when
    truthy, is a string. *)
Theorem X12_recent_is_normalized :
  forall (answer : Result (list JsVal)) (now : Z) (thingid : JsVal)
         (seconds : option Z),
    let out := getRecentDeviceResponses answer now thingid seconds in
    map sanitizeMongoDoc out = out
    /\ Forall (fun r => truthy (field "_id" r) = true ->
                        exists s, field "_id" r = JStr s) out.
Proof.
  intros [coll|e] now thingid seconds out; [|split; constructor].
  unfold out, getRecentDeviceResponses.
  set (cutoff := now - _ * 1000).
  assert (Q : forall d, In d (find_recent thingid cutoff coll) ->
                        exists fs, d = JObj fs).
  { intros d I. apply find_recent_in in I as [_ Q].
    now apply qualifies_object in Q. }
  induction (find_recent thingid cutoff coll) as [|d l IH]; simpl;
    [split; constructor|].
  destruct (Q d (or_introl eq_refl)) as [fs ->].
  destruct IH as [IH1 IH2]; [intros x I; apply Q; now right|].
  split.
  - now rewrite sanitize_object_twice, IH1.
  - constructor; [|exact IH2].
    rewrite sanitize_object.
    destruct (truthy (field "_id" (JObj fs))) eqn:T.
    + rewrite field_set_same. unfold id_toString. eauto.
    + intros T'. rewrite T in T'. discriminate.
Qed.

(** X13.  Looking further back never loses a document: whatever the
    answer for [seconds] holds, the answer for a larger number of seconds
    over the same collection holds too. *)
Theorem X13_recent_window_grows :
  forall (now : Z) (thingid : JsVal) (coll : list JsVal) (seconds seconds' : Z),
    seconds <= seconds' ->
    incl (getRecentDeviceResponses (Ok coll) now thingid (Some seconds))
         (getRecentDeviceResponses (Ok coll) now thingid (Some seconds')).
Proof.
  intros now thingid coll seconds seconds' L r I.
  unfold getRecentDeviceResponses in *.
  apply in_map_iff in I as (d & <- & I). apply in_map.
  apply find_recent_in in I as [I Q]. apply find_recent_in. split; [exact I|].
  apply qualifies_earlier with (now - seconds * 1000); [lia|exact Q].
Qed.

Lemma X13_recent_window_grows_witness :
  In (sanitizeMongoDoc (Fixtures.slave_reply "T0" 999500 []))
     (getRecentDeviceResponses
        (Ok [Fixtures.slave_reply "T0" 990500 [];
             Fixtures.slave_reply "T0" 999500 []])
        1000000 (JStr "T0") (Some 60)).
Proof.
  apply (X13_recent_window_grows 1000000 (JStr "T0")
           [Fixtures.slave_reply "T0" 990500 [];
            Fixtures.slave_reply "T0" 999500 []] 1 60).
  - lia.
  - left. reflexivity.
Defined.

Lemma X10_recent_is_the_window_witness :
  getRecentDeviceResponses
    (Ok [Fixtures.slave_reply "T0" 980000 [];
         Fixtures.slave_reply "T0" 999500 []])
    1000000 (JStr "T0") None
  = [sanitizeMongoDoc (Fixtures.slave_reply "T0" 999500 [])].
Proof.
  pose proof (X10_recent_is_the_window
                1000000 (JStr "T0") None
                [Fixtures.slave_reply "T0" 980000 [];
                 Fixtures.slave_reply "T0" 999500 []]) as H.
  cbv zeta in H. destruct H as (P & _).
  apply Permutation_length_1_inv. apply Permutation_sym. exact P.
Defined.

(** ** [setting] *)

(** X20.  [setting] succeeds exactly when the device resolves and the
    publish to its "setting" topic is accepted, and then answers with that
    topic; every failure it raises is an [Error] whose message starts with
    "MQTT Publish Failed: ". *)
Theorem X20_setting_outcomes :
  forall env deviceid payload,
    let thingid := getThingIdByDeviceId (db env) deviceid in
    let topic := getTopic env "setting" thingid "setting" in
    (forall v, setting env deviceid payload = Ok v
               <-> truthy thingid = true
                   /\ publishToIoT env topic payload = Ok tt
                   /\ v = JObj [("success", JBool true); ("topic", topic)])
    /\ (forall e, setting env deviceid payload = Throw e ->
                  exists m, e = Error ("MQTT Publish Failed: " ++ m)).
Proof.
  intros env deviceid payload thingid topic. unfold setting.
  fold thingid. fold topic.
  destruct (truthy thingid) eqn:T; simpl.
  - destruct (publishToIoT env topic payload) as [[]|err]; simpl; split.
    + intros v. split; [intros H; inversion H; auto|].
      intros (_ & _ & ->). reflexivity.
    + discriminate.
    + intros v. split; [discriminate|]. intros (_ & H & _). discriminate H.
    + intros e H. inversion H. eauto.
  - split.
    + intros v. split; [discriminate|]. intros (H & _). discriminate H.
    + intros e H. inversion H. eauto.
Qed.

(** ** [control] *)

Lemma control_object env user timestamp fs :
  control env user timestamp (JObj fs)
  = let body := JObj fs in
    let deviceid := field "deviceid" body in
    if negb (truthy deviceid)
    then (failure 400 "Missing deviceid in request", [])
    else
      let thingid := getThingIdByDeviceId (db env) deviceid in
      if negb (truthy thingid)
      then (failure 404 "DeviceId not found or no associated thing ID",
            [EResolve deviceid])
      else
        let topic := getTopic env "control" thingid "control" in
        let payload :=
          JObj (set_field "timestamp" (JStr timestamp)
                 (set_field "requestedBy" (get_opt user "mobile_number") fs)) in
        match publishToIoT env topic payload with
        | Throw error =>
            (failure 500 (message error),
             [EResolve deviceid; EPublish topic payload])
        | Ok _ =>
            ({| status := 200;
                json := JObj
                  [("success", JBool true);
                   ("message", JStr "Control command published successfully");
                   ("topic", topic)] |},
             [EResolve deviceid; EPublish topic payload])
        end.
Proof. reflexivity. Qed.

Lemma control_not_object env user timestamp body :
  (forall fs, body <> JObj fs) ->
  snd (control env user timestamp body) = []
  /\ status (fst (control env user timestamp body)) <> 200
  /\ truthy (field "deviceid" body) = false.
Proof.
  intros N.
  destruct body as [| | | | | | | | |fs];
    try (simpl; split; [reflexivity|split; [discriminate|reflexivity]]).
  exfalso. exact (N fs eq_refl).
Qed.

(** X14.  [control] never polls; it publishes -- once -- exactly when the
    request carries a device id that resolves; a missing device id is
    answered 400 with nothing done, an unresolved one 404 with nothing
    published; and the answer is 200 exactly when the publish was
    accepted. *)
Theorem X14_control_publish_discipline :
  forall env user timestamp body,
    let out := control env user timestamp body in
    let deviceid := field "deviceid" body in
    let thingid := getThingIdByDeviceId (db env) deviceid in
    (forall t ms, ~ In (EPoll t ms) (snd out))
    /\ ((exists topic payload, In (EPublish topic payload) (snd out))
        <-> truthy deviceid = true /\ truthy thingid = true)
    /\ (forall fs, body = JObj fs -> truthy deviceid = false ->
                   out = (failure 400 "Missing deviceid in request", []))
    /\ (truthy deviceid = true -> truthy thingid = false ->
        out = (failure 404 "DeviceId not found or no associated thing ID",
               [EResolve deviceid]))
    /\ (status (fst out) = 200
        <-> exists payload,
            snd out = [EResolve deviceid;
                       EPublish (getTopic env "control" thingid "control")
                                payload]
            /\ publishToIoT env (getTopic env "control" thingid "control")
                            payload = Ok tt).
Proof.
  intros env user timestamp body out deviceid thingid.
  assert (O : (exists fs, body = JObj fs) \/ forall fs, body <> JObj fs).
  { destruct body; try (right; discriminate). left. eauto. }
  destruct O as [[fs ->]|N].
  - unfold out. rewrite control_object. cbv zeta. fold deviceid. fold thingid.
    destruct (truthy deviceid) eqn:D; simpl negb; cbv iota.
    + destruct (truthy thingid) eqn:T; simpl negb; cbv iota.
      * destruct (publishToIoT env _ _) as [[]|err] eqn:P; simpl;
          (split; [intros t ms [H|[H|[]]]; discriminate H|]);
          (split; [split; [auto|]; intros _; eexists; eexists; right; left;
                   reflexivity|]);
          (split; [discriminate|]); (split; [discriminate|]).
        -- split; [intros _; eexists; split; [reflexivity|exact P]|reflexivity].
        -- split; [discriminate|].
           intros (payload & E & Q). inversion E. subst payload.
           rewrite P in Q. discriminate Q.
      * simpl. split; [intros t ms [H|[]]; discriminate H|].
        split; [split; [intros (? & ? & [H|[]]); discriminate H
                       |intros [_ H]; discriminate H]|].
        split; [discriminate|]. split; [reflexivity|].
        split; [discriminate|]. intros (payload & E & _). discriminate E.
    + simpl. split; [intros t ms []|].
      split; [split; [intros (? & ? & []) | intros [H _]; discriminate H]|].
      split; [reflexivity|]. split; [discriminate|].
      split; [discriminate|]. intros (payload & E & _). discriminate E.
  - destruct (control_not_object env user timestamp body N) as (E & S & D).
    fold out in E, S. fold deviceid in D. rewrite E.
    split; [intros t ms []|].
    split; [split; [intros (? & ? & []) | intros [H _]; congruence]|].
    split; [intros fs H; exfalso; now apply (N fs)|].
    split; [congruence|].
    split; [contradiction|]. intros (payload & H & _). discriminate H.
Qed.

(** X15.  The payload [control] publishes carries every field of the
    request body unchanged, except that [requestedBy] is the caller's
    [mobile_number] and [timestamp] the server's time, whatever the body
    supplied under those two names. *)
Theorem X15_control_payload :
  forall env user timestamp body topic payload,
    In (EPublish topic payload) (snd (control env user timestamp body)) ->
    field "requestedBy" payload = get_opt user "mobile_number"
    /\ field "timestamp" payload = JStr timestamp
    /\ (forall k, k <> "requestedBy" -> k <> "timestamp" ->
                  field k payload = field k body)
    /\ topic = getTopic env "control"
                        (getThingIdByDeviceId (db env) (field "deviceid" body))
                        "control".
Proof.
  intros env user timestamp body topic payload I.
  assert (O : (exists fs, body = JObj fs) \/ forall fs, body <> JObj fs).
  { destruct body; try (right; discriminate). left. eauto. }
  destruct O as [[fs ->]|N].
  - rewrite control_object in I. cbv zeta in I.
    destruct (truthy (field "deviceid" (JObj fs))); simpl negb in I;
      cbv iota in I; [|destruct I].
    destruct (truthy (getThingIdByDeviceId _ _)); simpl negb in I;
      cbv iota in I; [|destruct I as [H|[]]; discriminate H].
    assert (E : EPublish
                  (getTopic env "control"
                     (getThingIdByDeviceId (db env) (field "deviceid" (JObj fs)))
                     "control")
                  (JObj (set_field "timestamp" (JStr timestamp)
                           (set_field "requestedBy"
                                      (get_opt user "mobile_number") fs)))
                = EPublish topic payload).
    { destruct (publishToIoT env _ _); simpl in I;
        destruct I as [H|[H|[]]]; try discriminate H; exact H. }
    inversion E. subst. clear E I.
    repeat split.
    + simpl. rewrite assoc_set_other by discriminate.
      now rewrite assoc_set_same.
    + simpl. now rewrite assoc_set_same.
    + intros k K1 K2. simpl. now rewrite !assoc_set_other by congruence.
  - destruct (control_not_object env user timestamp body N) as (E & _).
    rewrite E in I. destruct I.
Qed.

Lemma X15_control_payload_witness :
  let payload := JObj [("deviceid", JStr "D1"); ("valve", JStr "open");
                       ("requestedBy", JStr "9000000001");
                       ("timestamp", JStr "2024-05-01T10:00:00.000Z")] in
  field "requestedBy" payload = JStr "9000000001"
  /\ field "valve" payload = JStr "open".
Proof.
  intros payload.
  pose proof (X15_control_payload
                (Fixtures.env_of Fixtures.db_scenario (Fixtures.steady []))
                (JObj [("mobile_number", JStr "9000000001")])
                "2024-05-01T10:00:00.000Z"
                (JObj [("deviceid", JStr "D1"); ("valve", JStr "open");
                       ("requestedBy", JStr "someone else")])
                (JStr "control/T0/control") payload) as H.
  destruct H as (R & _ & K & _).
  - right. left. reflexivity.
  - split; [exact R|]. rewrite K; [reflexivity|discriminate|discriminate].
Defined.

Lemma X14_control_publish_discipline_witness :
  control (Fixtures.env_of Fixtures.db_empty (Fixtures.steady []))
          (JObj [("mobile_number", JStr "9000000001")])
          "2024-05-01T10:00:00.000Z"
          (JObj [("deviceid", JStr "ghost")])
  = (failure 404 "DeviceId not found or no associated thing ID",
     [EResolve (JStr "ghost")]).
Proof.
  pose proof (X14_control_publish_discipline
                (Fixtures.env_of Fixtures.db_empty (Fixtures.steady []))
                (JObj [("mobile_number", JStr "9000000001")])
                "2024-05-01T10:00:00.000Z"
                (JObj [("deviceid", JStr "ghost")])) as H.
  cbv zeta in H. destruct H as (_ & _ & _ & H & _).
  apply H; reflexivity.
Defined.

(** ** [isBaseResponded] and [isTankResponded] *)

Lemma base_answer handle start params :
  params <> JUndefined -> params <> JNull ->
  isBaseResponded handle start params
  = (let deviceid := field "deviceid" params in
     if negb (truthy deviceid) then Ok (required "Device ID is required.")
     else match handle with
          | Some w =>
              Ok (responded_answer
                    (checkBaseRespondedInMongo w start deviceid 5000)
                    "Base responded successfully." "Base did not respond.")
          | None => Ok (internal_error no_connection)
          end).
Proof.
  intros N1 N2. destruct params; try contradiction;
    cbv zeta; unfold isBaseResponded, with_collection;
    destruct (negb _); try reflexivity; destruct handle; reflexivity.
Qed.

Lemma tank_answer handle start params :
  params <> JUndefined -> params <> JNull ->
  isTankResponded handle start params
  = (let deviceid := field "deviceid" params in
     let sensorNumber := field "sensorNumber" params in
     if negb (truthy deviceid) || negb (truthy sensorNumber)
     then Ok (required "Device ID and Sensor Number are required.")
     else match handle with
          | Some w =>
              Ok (responded_answer
                    (checkTankRespondedInMongo w start deviceid sensorNumber
                                               10000)
                    "Tank responded successfully." "Tank did not respond.")
          | None => Ok (internal_error no_connection)
          end).
Proof.
  intros N1 N2. destruct params; try contradiction;
    cbv zeta; unfold isTankResponded, with_collection;
    destruct (_ || _); try reflexivity; destruct handle; reflexivity.
Qed.

Ltac answer_settled :=
  simpl; repeat split;
  try solve [ auto 6 | easy
            | intros; repeat match goal with
                             | H : _ /\ _ |- _ => destruct H
                             | H : _ \/ _ |- _ => destruct H
                             | H : exists _, _ |- _ => destruct H
                             end; easy ].

(** X16.  With request parameters present, each read-side check answers
    400 exactly when a required parameter is missing (nothing is polled
    then); 500 with [success: false] and "Internal server error." exactly
    when the parameters are there and no database connection is open, the
    collection handle being taken before the loop's [try]; 200 exactly
    when its poll reports a reply; and 404 otherwise -- a 404 is given
    only after the poll has run its whole budget (5000 ms for the base,
    10000 ms for the tank).  [success] tells whether the status is 200. *)
Theorem X16_read_side_answers :
  forall (handle : option World) (start : Z) (params : JsVal),
    params <> JUndefined -> params <> JNull ->
    let deviceid := field "deviceid" params in
    let sensorNumber := field "sensorNumber" params in
    (exists r,
        isBaseResponded handle start params = Ok r
        /\ (status r = 400 <-> truthy deviceid = false)
        /\ (status r = 500 <-> truthy deviceid = true /\ handle = None)
        /\ (status r = 200
            <-> exists w, handle = Some w /\ truthy deviceid = true
                          /\ checkBaseRespondedInMongo w start deviceid 5000
                             = true)
        /\ (status r = 404 ->
            exists w, handle = Some w
                      /\ runs_to_expiry (base_shape deviceid) w start 5000)
        /\ (status r = 200 \/ status r = 400 \/ status r = 404
            \/ status r = 500)
        /\ field "success" (json r) = JBool (status r =? 200)
        /\ (status r = 500 ->
            field "message" (json r) = JStr "Internal server error."))
    /\ (exists r,
           isTankResponded handle start params = Ok r
           /\ (status r = 400
               <-> truthy deviceid = false \/ truthy sensorNumber = false)
           /\ (status r = 500
               <-> truthy deviceid = true /\ truthy sensorNumber = true
                   /\ handle = None)
           /\ (status r = 200
               <-> exists w, handle = Some w /\ truthy deviceid = true
                             /\ truthy sensorNumber = true
                             /\ checkTankRespondedInMongo
                                  w start deviceid sensorNumber 10000 = true)
           /\ (status r = 404 ->
               exists w, handle = Some w
                         /\ runs_to_expiry (tank_shape deviceid sensorNumber)
                                           w start 10000)
           /\ (status r = 200 \/ status r = 400 \/ status r = 404
               \/ status r = 500)
           /\ field "success" (json r) = JBool (status r =? 200)
           /\ (status r = 500 ->
               field "message" (json r) = JStr "Internal server error.")).
Proof.
  intros handle start params N1 N2 deviceid sensorNumber.
  rewrite (base_answer handle start params N1 N2).
  rewrite (tank_answer handle start params N1 N2).
  cbv zeta. fold deviceid. fold sensorNumber. split.
  - destruct (truthy deviceid) eqn:D; cbv [negb];
      [|eexists; split; [reflexivity|]; answer_settled].
    destruct handle as [w|];
      [|eexists; split; [reflexivity|]; answer_settled].
    eexists. split; [reflexivity|].
    destruct (checkBaseRespondedInMongo w start deviceid 5000) eqn:P.
    + answer_settled. exists w. auto.
    + answer_settled.
      * intros (w' & E & _ & C). inversion E. subst w'.
        rewrite P in C. discriminate C.
      * intros _. exists w. split; [reflexivity|].
        apply poll_null_runs_to_expiry; [reflexivity|exact P].
  - destruct (truthy deviceid) eqn:D; cbv [negb orb];
      [|eexists; split; [reflexivity|]; answer_settled].
    destruct (truthy sensorNumber) eqn:S; cbv [negb orb];
      [|eexists; split; [reflexivity|]; answer_settled].
    destruct handle as [w|];
      [|eexists; split; [reflexivity|]; answer_settled].
    eexists. split; [reflexivity|].
    destruct (checkTankRespondedInMongo w start deviceid sensorNumber 10000)
      eqn:P.
    + answer_settled. exists w. auto.
    + answer_settled.
      * intros (w' & E & _ & _ & C). inversion E. subst w'.
        rewrite P in C. discriminate C.
      * intros _. exists w. split; [reflexivity|].
        apply poll_null_runs_to_expiry; [reflexivity|exact P].
Qed.

Lemma X16_read_side_answers_witness :
  (exists r,
      isBaseResponded (Some Fixtures.broken) 0 (JObj [("deviceid", JStr "D0")])
      = Ok r
      /\ field "success" (json r) = JBool (status r =? 200))
  /\ (exists r,
         isTankResponded None 0
           (JObj [("deviceid", JStr "D1"); ("sensorNumber", JStr "2")])
         = Ok r
         /\ field "message" (json r) = JStr "Internal server error.").
Proof.
  split.
  - pose proof (X16_read_side_answers
                  (Some Fixtures.broken) 0 (JObj [("deviceid", JStr "D0")]))
      as H.
    cbv zeta in H.
    destruct H as [(r & E & _ & _ & _ & _ & _ & S & _) _]; try discriminate.
    exists r. split; [exact E | exact S].
  - pose proof (X16_read_side_answers
                  None 0
                  (JObj [("deviceid", JStr "D1"); ("sensorNumber", JStr "2")]))
      as H.
    cbv zeta in H.
    destruct H as [_ (r & E & _ & F & _ & _ & _ & _ & M)]; try discriminate.
    exists r. split; [exact E|]. apply M. apply F. repeat split.
Defined.

Lemma poll_clause_never_met sh w start timeoutMs :
  0 < interval sh ->
  (forall i coll d,
      reply (w i) = Ok coll -> In d coll ->
      forallb (fun kq => mongo_eq (snd kq) (field (fst kq) d)) (clauses sh)
      = false) ->
  poll sh w start timeoutMs = JNull.
Proof.
  intros P H. apply poll_null_iff; [exact P|].
  intros i _. apply seen_null.
  destruct (reply (w i)) as [coll|e] eqn:R; [|exact I].
  intros d I. unfold qualifies. now rewrite (H i coll d R I).
Qed.

(** X17.  The sensor number of [isTankResponded] arrives as a string and is
    compared with the stored [sensor_no] as it is: over a collection whose
    documents store [sensor_no] as a number the check never finds a
    reply and answers 404. *)
Theorem X17_tank_sensor_string_never_matches_number :
  forall (w : World) (start : Z) (params : JsVal) (s : string),
    truthy (field "deviceid" params) = true ->
    field "sensorNumber" params = JStr s ->
    s <> EmptyString ->
    (forall i coll d, reply (w i) = Ok coll -> In d coll ->
                      exists n, field "sensor_no" d = JNum n) ->
    isTankResponded (Some w) start params
    = Ok (responded_answer false "Tank responded successfully."
                           "Tank did not respond.").
Proof.
  intros w start params s D S N H.
  destruct (truthy_field_object _ _ D) as [fs ->].
  unfold isTankResponded, with_collection. rewrite D, S.
  assert (truthy (JStr s) = true) as ->
      by (simpl; destruct s; [congruence|reflexivity]).
  simpl negb. cbv [orb]. unfold checkTankRespondedInMongo.
  rewrite poll_clause_never_met; [reflexivity|reflexivity|].
  intros i coll d R I. destruct (H i coll d R I) as [n E].
  simpl. rewrite E. simpl. now rewrite andb_false_r.
Qed.

Lemma X17_tank_sensor_string_never_matches_number_witness :
  isTankResponded
    (Some (Fixtures.steady
       [JObj [("deviceid", JStr "D1"); ("sensor_no", JNum 2);
              ("message_type", JStr "update"); ("timestamp", JDate 999900)]]))
    1000000
    (JObj [("deviceid", JStr "D1"); ("sensorNumber", JStr "2")])
  = Ok (responded_answer false "Tank responded successfully."
                         "Tank did not respond.").
Proof.
  apply (X17_tank_sensor_string_never_matches_number _ _ _ "2").
  - reflexivity.
  - reflexivity.
  - discriminate.
  - intros i coll d R I. unfold Fixtures.steady in R. cbn [reply] in R.
    inversion R. subst coll. destruct I as [<-|[]].
    exists 2. reflexivity.
Defined.

(** ** [slaveRequest], further *)

Lemma slaveRequest_object env fs :
  slaveRequest env (JObj fs)
  = let body := JObj fs in
    if negb (truthy (field "deviceid" body))
       || negb (truthy (field "sensor_no" body))
    then (failure 400 "Missing deviceid or sensor_no", [])
    else if negb (truthy (thing_of env body))
         then (failure 404 "DeviceId not found or no associated thing ID",
               [EResolve (field "deviceid" body)])
         else slaveRequest env body.
Proof.
  cbv zeta. unfold thing_of.
  destruct (negb (truthy (field "deviceid" (JObj fs)))
            || negb (truthy (field "sensor_no" (JObj fs)))) eqn:V.
  - unfold slaveRequest. rewrite V. reflexivity.
  - destruct (negb (truthy (getThingIdByDeviceId (db env)
                                                 (field "deviceid" (JObj fs)))))
      eqn:T; [|reflexivity].
    unfold slaveRequest. rewrite V, T. reflexivity.
Qed.

Ltac now_settled :=
  simpl; repeat split;
  solve [ auto 6 | easy ].

(** X18.  Whatever the request, [slaveRequest] acts in the order resolve,
    publish, poll and stops at the first step that fails: its calls are a
    beginning of that sequence; 400 goes with no call at all, 404 with the
    resolution alone, and 200 exactly with all three. *)
Theorem X18_slave_request_order :
  forall env body,
    let out := slaveRequest env body in
    is_prefix (snd out)
              [EResolve (field "deviceid" body);
               EPublish (topic_for env body) (build_payload body);
               EPoll (thing_of env body) 10000]
    /\ (status (fst out) = 400 -> snd out = [])
    /\ (status (fst out) = 404 -> snd out = [EResolve (field "deviceid" body)])
    /\ (status (fst out) = 200 <-> List.length (snd out) = 3%nat)
    /\ (status (fst out) = 200 \/ status (fst out) = 400
        \/ status (fst out) = 404 \/ status (fst out) = 500).
Proof.
  intros env body out. unfold out.
  destruct (accepted_dec env body) as [A|NA].
  - rewrite (slaveRequest_accepted env body A).
    destruct (publishToIoT env _ _) as [[]|err];
      [destruct (truthy (polled env body))|];
      now_settled.
  - assert (O : (exists fs, body = JObj fs) \/ forall fs, body <> JObj fs).
    { destruct body; try (right; discriminate). left. eauto. }
    destruct O as [[fs ->]|N].
    + rewrite slaveRequest_object. cbv zeta.
      destruct (truthy (field "deviceid" (JObj fs))) eqn:D; cbv [negb orb];
        [|now_settled].
      destruct (truthy (field "sensor_no" (JObj fs))) eqn:S; cbv [negb orb];
        [|now_settled].
      destruct (truthy (thing_of env (JObj fs))) eqn:T; cbv [negb orb];
        [|now_settled].
      exfalso. apply NA. unfold accepted. auto.
    + destruct body as [| | | | | | | | |fs];
        try now_settled.
      exfalso. exact (N fs eq_refl).
Qed.

(** X19.  The [mode] a device is sent is always a number other than zero,
    and [channel], [range] and [capacity] are numbers or [NaN] -- never a
    string or a missing value. *)
Theorem X19_published_numbers :
  forall env body topic payload,
    In (EPublish topic payload) (snd (slaveRequest env body)) ->
    (exists n, field "mode" payload = JNum n /\ n <> 0)
    /\ (forall k, k = "channel" \/ k = "range" \/ k = "capacity" ->
                  (exists n, field k payload = JNum n)
                  \/ field k payload = JNaN).
Proof.
  intros env body topic payload I.
  destruct (slaveRequest_published _ _ _ _ I) as (_ & _ & ->).
  destruct (payload_fields body)
    as (_ & _ & Hm & Hc & Hr & Hcap & _).
  split.
  - rewrite Hm. unfold published_mode.
    destruct (parseInt_number_or_NaN (field "mode" body)) as [[n E]|E];
      rewrite E.
    + destruct (Z.eqb_spec n 0); [exists 3|exists n]; split; auto; lia.
    + exists 3. split; [reflexivity|lia].
  - intros k [->|[->| ->]]; rewrite ?Hc, ?Hr, ?Hcap;
      apply parseInt_number_or_NaN.
Qed.

Lemma X19_published_numbers_witness :
  exists n,
    field "mode" (build_payload (Fixtures.request [("mode", JStr "off")]))
    = JNum n /\ n <> 0.
Proof.
  pose proof (X19_published_numbers
                (Fixtures.env_of Fixtures.db_scenario (Fixtures.steady []))
                (Fixtures.request [("mode", JStr "off")])
                (JStr "slaveRequest/T0/slaveRequest")
                (build_payload (Fixtures.request [("mode", JStr "off")]))) as H.
  destruct H as [H _]; [|exact H].
  vm_compute. right. left. reflexivity.
Defined.

Lemma resolve_outage d0 deviceid :
  (exists e, sensor_metadata_findOne d0 deviceid = Throw e) ->
  (exists e, users_findOne d0 deviceid = Throw e) ->
  getThingIdByDeviceId d0 deviceid = JNull.
Proof.
  intros [e1 S] [e2 U]. unfold getThingIdByDeviceId.
  destruct (truthy deviceid); [|reflexivity].
  unfold from_sensor_metadata, from_users. rewrite S, U. reflexivity.
Qed.

(** X21.  While the store rejects the resolver's queries, every call is
    answered as for an unknown device: [slaveRequest] and [control] give
    404 without publishing, and [setting] raises its wrapped "No thingid
    found" error -- a store outage is not reported as an internal
    error. *)
Theorem X21_store_outage_reads_as_not_found :
  forall env,
    (forall d, exists e, sensor_metadata_findOne (db env) d = Throw e) ->
    (forall d, exists e, users_findOne (db env) d = Throw e) ->
    (forall body,
        truthy (field "deviceid" body) = true ->
        truthy (field "sensor_no" body) = true ->
        slaveRequest env body
        = (failure 404 "DeviceId not found or no associated thing ID",
           [EResolve (field "deviceid" body)]))
    /\ (forall user timestamp body,
           truthy (field "deviceid" body) = true ->
           control env user timestamp body
           = (failure 404 "DeviceId not found or no associated thing ID",
              [EResolve (field "deviceid" body)]))
    /\ (forall deviceid payload,
           setting env deviceid payload
           = Throw (Error
                      ("MQTT Publish Failed: No thingid found for deviceid: "
                       ++ to_string deviceid))).
Proof.
  intros env S U.
  assert (R : forall d, getThingIdByDeviceId (db env) d = JNull)
    by (intros d; now apply resolve_outage).
  repeat split.
  - intros body D Sn. destruct (truthy_field_object _ _ D) as [fs ->].
    rewrite slaveRequest_object. cbv zeta. rewrite D, Sn.
    unfold thing_of. rewrite R. reflexivity.
  - intros user timestamp body D. destruct (truthy_field_object _ _ D) as [fs ->].
    rewrite control_object. cbv zeta. rewrite D, R. reflexivity.
  - intros deviceid payload. apply setting_not_found. now rewrite R.
Qed.

Lemma X21_store_outage_reads_as_not_found_witness :
  slaveRequest
    {| db := {| sensor_metadata_findOne := fun _ => Throw (Error "down");
                users_findOne := fun _ => Throw (Error "down") |};
       getTopic := Fixtures.topic_of;
       publishToIoT := fun _ _ => Ok tt;
       world := Fixtures.steady [];
       poll_start := 0 |}
    (Fixtures.request [])
  = (failure 404 "DeviceId not found or no associated thing ID",
     [EResolve (JStr "D1")]).
Proof.
  apply (X21_store_outage_reads_as_not_found
           {| db := {| sensor_metadata_findOne := fun _ => Throw (Error "down");
                       users_findOne := fun _ => Throw (Error "down") |};
              getTopic := Fixtures.topic_of;
              publishToIoT := fun _ _ => Ok tt;
              world := Fixtures.steady [];
              poll_start := 0 |}).
  - intros d. exists (Error "down"). reflexivity.
  - intros d. exists (Error "down"). reflexivity.
  - reflexivity.
  - reflexivity.
Defined.

Lemma poll_first_query sh w start timeoutMs :
  0 < interval sh ->
  Z.of_N (before_guard (w O)) < timeoutMs ->
  truthy (seen sh w start 0) = true ->
  poll sh w start timeoutMs = seen sh w start 0.
Proof.
  intros P B T.
  destruct (poll_stops sh w start timeoutMs P) as [n S].
  assert (S0 : stops_at sh w start timeoutMs 0 (seen sh w start 0)).
  { split; [intros j L; lia|]. left. repeat split; auto.
    unfold in_budget. simpl. lia. }
  now destruct (stops_at_unique sh w start timeoutMs _ _ _ _ S S0).
Qed.

(** X22.  The poll after a publish does not tell replies to this request
    from earlier ones: if the first query already finds a slave response
    of the thing inserted within the 15000 ms before it -- even before
    the request was made -- [slaveRequest] answers 200 at once with the
    latest such document, whose date is carried as [timestamp]. *)
Theorem X22_first_query_reply_is_taken :
  forall env body coll d t,
    accepted env body ->
    publishToIoT env (topic_for env body) (build_payload body) = Ok tt ->
    Z.of_N (before_guard (world env O)) < 10000 ->
    reply (world env O) = Ok coll ->
    In d coll ->
    mongo_eq (thing_of env body) (field "thingid" d) = true ->
    field "response_type" d = JStr "slave_response" ->
    field "inserted_at" d = JDate t ->
    poll_start env + Z.of_N (before_guard (world env O))
    + Z.of_N (before_since (world env O)) - 15000 <= t ->
    let out := slaveRequest env body in
    status (fst out) = 200
    /\ polled env body
       = seen (slave_shape (thing_of env body)) (world env) (poll_start env) 0
    /\ In (polled env body) coll
    /\ exists t', field "timestamp" (field "data" (json (fst out))) = JDate t'
                  /\ t <= t'.
Proof.
  intros env body coll d t A P B R I Et Er Ei L out.
  set (sh := slave_shape (thing_of env body)).
  assert (Q : qualifies (clauses sh) (key sh)
                (since_time sh (world env) (poll_start env) 0 - window sh) d
              = true).
  { unfold qualifies, stamp. simpl. rewrite Et, Er, Ei. simpl.
    apply Z.leb_le. unfold since_time. simpl. lia. }
  assert (T : truthy (seen sh (world env) (poll_start env) 0) = true).
  { apply truthy_seen. exists coll, d. auto. }
  assert (E : polled env body = seen sh (world env) (poll_start env) 0).
  { unfold polled, waitForSlaveResponseFromMongoDB. fold sh.
    apply poll_first_query; auto. reflexivity. }
  assert (N : findOne_latest (clauses sh) (key sh)
                (since_time sh (world env) (poll_start env) 0 - window sh) coll
              <> JNull).
  { intros H. unfold seen in T. rewrite R, H in T. discriminate. }
  destruct (findOne_latest_doc _ _ _ coll N) as (Ic & _ & _ & M).
  assert (S : seen sh (world env) (poll_start env) 0
              = findOne_latest (clauses sh) (key sh)
                  (since_time sh (world env) (poll_start env) 0 - window sh)
                  coll).
  { unfold seen. now rewrite R. }
  unfold out. rewrite (slaveRequest_accepted env body A), P, E, T.
  split; [reflexivity|]. split; [reflexivity|].
  split; [rewrite S; exact Ic|].
  destruct (M d I Q) as (td & tr & Sd & Sr & Le).
  change (key sh) with "inserted_at" in *.
  unfold stamp in Sd. rewrite Ei in Sd. inversion Sd. subst td.
  exists tr. split; [|exact Le].
  cbn [fst json field assoc String.eqb Ascii.eqb Bool.eqb reply_data].
  rewrite S. unfold stamp in Sr.
  destruct (field "inserted_at" (findOne_latest _ _ _ coll));
    try discriminate Sr.
  now inversion Sr.
Qed.

Lemma X22_first_query_reply_is_taken_witness :
  status
    (fst (slaveRequest
            (Fixtures.env_of Fixtures.db_scenario
               (Fixtures.steady [Fixtures.slave_reply "T0" 990000 []]))
            (Fixtures.request [("channel", JStr "4")])))
  = 200.
Proof.
  apply (X22_first_query_reply_is_taken
           (Fixtures.env_of Fixtures.db_scenario
              (Fixtures.steady [Fixtures.slave_reply "T0" 990000 []]))
           (Fixtures.request [("channel", JStr "4")])
           [Fixtures.slave_reply "T0" 990000 []]
           (Fixtures.slave_reply "T0" 990000 []) 990000).
  - repeat split; reflexivity.
  - reflexivity.
  - simpl. lia.
  - reflexivity.
  - left. reflexivity.
  - reflexivity.
  - reflexivity.
  - reflexivity.
  - simpl. lia.
Defined.
